(** * The multi-task NER/RE network of model.py, embedded in Rocq

    model.py only composes PyTorch layers.  A class of model.py becomes a
    function that builds the attribute map of the instance, in a monad that
    records every call made into PyTorch and stops at the first exception.
    The PyTorch and Python operations which model.py uses are modelled first,
    with their dynamic checks; the numbers inside tensors stay abstract. *)

From stdpp Require Import gmap strings list.
From Stdlib Require Import ZArith Lia.

Set Warnings "-register-all".
Local Open Scope Z_scope.

(** ** Values *)

Inductive rnn_unit := GRU | LSTM.
Inductive activation := ReLU | Tanh | GELU.

(** The exception classes that the modelled operations raise. *)
Inductive exn :=
| TypeError | ValueError | AttributeError | NameError | IndexError
| RuntimeError | AssertionError | NotImplementedError.

Inductive result (A : Type) : Type :=
| Ok (a : A)
| Raise (e : exn).
Arguments Ok {A} a.
Arguments Raise {A} e.

(** ** Tensors

    A tensor is its list of sizes and its entries in row-major order.  A
    packed batch ([PackedSequence]) is kept as the sequences it stands for,
    in the order of the batch: each one a list of time steps, each time
    step the flat entries of one feature block of sizes [features].
    [steps] is the number of time steps that the batch announces for each
    sequence (what its [batch_sizes] add up to); [seqs] holds the time
    steps that its data really has, which are fewer when a sequence was
    packed with a length above the padded length. *)
Record tensor (A : Type) := Tensor { shape : list nat; data : list A }.
Arguments Tensor {A} shape data.
Arguments shape {A} t.
Arguments data {A} t.

Record packed (A : Type) :=
  Packed { features : list nat; steps : list nat;
           seqs : list (list (list A)) }.
Arguments Packed {A} features steps seqs.
Arguments features {A} p.
Arguments steps {A} p.
Arguments seqs {A} p.

Definition numel (s : list nat) : nat := foldr Nat.mul 1%nat s.

(** [l[off : off + n]] of a flat list. *)
Definition slice {A} (off n : nat) (l : list A) : list A :=
  take n (drop off l).

(** [f 0, ..., f (n - 1)] *)
Definition tab {A} (n : nat) (f : nat → A) : list A := f <$> seq 0 n.

(** The tensor of sizes [n1; n2; n3] with entry [f i j k] at [i, j, k]. *)
Definition tensor3 {A} (n1 n2 n3 : nat) (f : nat → nat → nat → A) : tensor A :=
  Tensor [n1; n2; n3]
    (flat_map (λ i, flat_map (λ j, tab n3 (f i j)) (seq 0 n2)) (seq 0 n1)).

Definition tensor2 {A} (n1 n2 : nat) (f : nat → nat → A) : tensor A :=
  Tensor [n1; n2] (flat_map (λ i, tab n2 (f i)) (seq 0 n1)).

Section TensorOps.
Context {A : Type}.

(** Position of index [i] in a dimension of size [n]; a negative index
    counts from the end. *)
Definition index_pos (n : nat) (i : Z) : option nat :=
  let j := if i <? 0 then i + Z.of_nat n else i in
  if (0 <=? j) && (j <? Z.of_nat n) then Some (Z.to_nat j) else None.

(** [t[i]]: the [i]-th block along the first dimension. *)
Definition t_index (t : tensor A) (i : Z) : result (tensor A) :=
  match shape t with
  | n :: rest =>
      match index_pos n i with
      | Some j => let k := numel rest in
                  Ok (Tensor rest (slice (j * k) k (data t)))
      | None => Raise IndexError
      end
  | [] => Raise IndexError
  end.

(** [a, b = t]: iterating over a tensor yields the blocks along its first
    dimension, and there must be exactly two of them. *)
Definition t_unpack2 (t : tensor A) : result (tensor A * tensor A) :=
  match shape t with
  | n :: rest =>
      if (n =? 2)%nat then
        let k := numel rest in
        Ok (Tensor rest (slice 0 k (data t)),
            Tensor rest (slice k k (data t)))
      else Raise ValueError
  | [] => Raise TypeError
  end.

(** The sizes that [view] gives to a tensor of [n] entries: the requested
    sizes when their product is [n]; a single [-1] stands for the size
    that makes the product [n], when there is one. *)
Definition view_shape (n : nat) (dims : list Z) : option (list nat) :=
  if existsb (λ d, d <? -1) dims then None else
  let known := filter (λ d, d ≠ -1) dims in
  let p := numel (Z.to_nat <$> known) in
  match (length dims - length known)%nat with
  | O => if (p =? n)%nat then Some (Z.to_nat <$> dims) else None
  | S O =>
      if (p =? 0)%nat then None
      else if (n mod p =? 0)%nat then
        Some ((λ d, if d =? -1 then (n / p)%nat else Z.to_nat d) <$> dims)
      else None
  | _ => None
  end.

(** [t.view(dims)]: the same entries under new sizes. *)
Definition t_view (t : tensor A) (dims : list Z) : result (tensor A) :=
  match view_shape (numel (shape t)) dims with
  | Some s => Ok (Tensor s (data t))
  | None => Raise RuntimeError
  end.

(** [t.transpose(0, 1)]: entry [j, i, ...] of the result is entry
    [i, j, ...] of [t]. *)
Definition t_transpose01 (t : tensor A) : result (tensor A) :=
  match shape t with
  | a :: b :: rest =>
      let k := numel rest in
      Ok (Tensor (b :: a :: rest)
            (flat_map (λ j,
               flat_map (λ i, slice ((i * b + j) * k) k (data t)) (seq 0 a))
               (seq 0 b)))
  | _ => Raise IndexError
  end.

Definition sorted_decreasing (l : list Z) : bool :=
  forallb (λ p : Z * Z, p.2 <=? p.1) (zip l (drop 1 l)).

(** [pack_padded_sequence(t, lengths, batch_first, enforce_sorted)]: [t]
    holds a batch of sequences padded to a common length [T], along its
    first two dimensions; sequence [b] keeps its first [lengths[b]] time
    steps.

    Without [enforce_sorted], PyTorch first sorts the lengths and selects
    the rows of the batch by the sorting indices, which are the positions
    [0 .. len(lengths) - 1]: more lengths than rows is an IndexError of
    that selection, and with fewer lengths the batch is cut to its first
    [len(lengths)] rows.  With [enforce_sorted] the number of lengths must
    be the batch size and the lengths must come in decreasing order.  An
    empty tensor and a length below 1 are refused.  A length above [T] is
    packed: the sequence is announced with that many steps and the data
    holds its [T] steps only.  A tensor of one dimension fails when its
    first two dimensions are exchanged; an embedding gives no tensor
    without dimensions. *)
Definition t_pack (t : tensor A) (lengths : list Z)
    (batch_first enforce_sorted : bool) : result (packed A) :=
  let n := length lengths in
  match shape t with
  | d0 :: d1 :: feat =>
      let B := if batch_first then d0 else d1 in
      let T := if batch_first then d1 else d0 in
      let k := numel feat in
      let rows := if enforce_sorted then B else n in
      if negb enforce_sorted && (B <? n)%nat then Raise IndexError
      else if (rows * T * k =? 0)%nat then Raise RuntimeError
      else if negb (n =? rows)%nat then Raise RuntimeError
      else if negb (forallb (λ l, 0 <? l) lengths) then Raise RuntimeError
      else if enforce_sorted && negb (sorted_decreasing lengths)
      then Raise RuntimeError
      else Ok (Packed feat (Z.to_nat <$> lengths)
                 (imap (λ b l,
                    (λ s, slice ((if batch_first then b * T + s
                                  else s * B + b) * k) k (data t))
                    <$> seq 0 (Nat.min (Z.to_nat l) T)) lengths))
  | [d0] =>
      if enforce_sorted then
        if (d0 =? 0)%nat then Raise RuntimeError else Raise IndexError
      else if batch_first then
        if (d0 <? n)%nat then Raise IndexError
        else if (n =? 0)%nat then Raise RuntimeError
        else Raise IndexError
      else Raise IndexError
  | [] => Raise IndexError
  end.

(** [torch.cat(ts, dim)]: the tensors must have the same number of
    dimensions and the same sizes except along [dim]; tensors of sizes
    [[0]] are skipped. *)
Definition cat_compatible (d : nat) (s0 s : list nat) : bool :=
  (length s =? length s0)%nat
  && bool_decide (take d s = take d s0)
  && bool_decide (drop (S d) s = drop (S d) s0).

Definition t_cat (ts : list (tensor A)) (dim : Z) : result (tensor A) :=
  match ts with
  | [] => Raise RuntimeError
  | _ =>
    match filter (λ t, shape t ≠ [0%nat]) ts with
    | [] => Ok (Tensor [0%nat] [])
    | t0 :: rest =>
        let s0 := shape t0 in
        match s0 with
        | [] => Raise RuntimeError
        | _ =>
          match index_pos (length s0) dim with
          | None => Raise IndexError
          | Some d =>
              if forallb (λ t, cat_compatible d s0 (shape t)) rest then
                let outer := numel (take d s0) in
                let block (t : tensor A) := numel (drop d (shape t)) in
                let along :=
                  sum_list ((λ t, default 0%nat (shape t !! d)) <$> t0 :: rest) in
                Ok (Tensor (<[d := along]> s0)
                      (flat_map (λ o,
                         flat_map (λ t, slice (o * block t) (block t) (data t))
                                  (t0 :: rest))
                         (seq 0 outer)))
              else Raise RuntimeError
          end
        end
    end
  end.

End TensorOps.

Section Model.

(** The scalar type of floating-point tensors.  No operation of model.py
    looks inside a scalar. *)
Context {elem : Type}.

(** The Python values that reach model.py.  [VObj] is an instance of one of
    the classes of model.py ([nn.Module] subclasses), with its attributes. *)
Inductive value : Type :=
| VNone
| VInt (n : Z)
| VStr (s : string)
| VList (items : list value)
| VTuple (items : list value)
| VTensor (t : tensor elem)
| VLong (t : tensor Z)
| VPacked (p : packed elem)
| VPackedLong (p : packed Z)
| VEmbedding (num_embeddings embedding_dim : Z) (padding_idx : option Z)
             (weight : list (list elem))
| VRNN (unit : rnn_unit) (input_size hidden_size num_layers : Z)
       (bidirectional : bool)
| VLinear (in_features out_features : Z)
| VActivation (a : activation)
| VCrossEntropyLoss
| VObj (cls : string) (attrs : gmap string value).

(** ** Calls into PyTorch, as events *)

Inductive event :=
| New_Embedding (num_embeddings embedding_dim padding_idx : value)
| New_RNN (unit : rnn_unit) (input_size hidden_size num_layers : value)
          (bidirectional : bool)
| New_Linear (in_features out_features : value)
| New_Activation (a : activation)
| New_CrossEntropyLoss
| Call (callee arg : value)
| Pack_padded_sequence (input lengths : value)
                       (batch_first enforce_sorted : bool)
| Load_elmo_weights (X : value)
| Load_glove_embeddings (X : value)
| Torch_cat (tensors : list value) (dim : Z).

(** ** The monad: a log of events and a value or an exception *)

Definition M (A : Type) : Type := (list event * result A)%type.

Definition ret {A} (a : A) : M A := ([], Ok a).

Definition bind {A B} (m : M A) (k : A → M B) : M B :=
  match m with
  | (t, Ok a) => let '(t', r) := k a in (t ++ t', r)
  | (t, Raise e) => (t, Raise e)
  end.

Definition raise {A} (e : exn) : M A := ([], Raise e).
Definition emit (ev : event) : M unit := ([ev], Ok tt).
Definition lift {A} (r : result A) : M A := ([], r).

Definition trace {A} (m : M A) : list event := m.1.
Definition outcome {A} (m : M A) : result A := m.2.

#[local] Instance M_ret : MRet M := @ret.
#[local] Instance M_bind : MBind M := λ A B k m, bind m k.

(** ** Numbers that stay abstract *)

(** What PyTorch computes in floating point: the zero scalar, the
    conversion of an integer, the entries drawn at initialisation, the
    activation functions, and the outputs and final states of a recurrent
    layer and of a linear layer, as functions of the layer, its input and
    the position of the entry. *)
Class Backend := {
  zero : elem;
  of_int : Z → elem;
  normal_ : nat → nat → elem;
  act_fn : activation → elem → elem;
  rnn_out : value → value → nat → nat → nat → elem;
  rnn_h : value → value → nat → nat → nat → elem;
  rnn_c : value → value → nat → nat → nat → elem;
  linear_out : value → value → nat → elem
}.

(** utils.py is not part of the sources.  model.py imports two functions
    from it; they are taken as parameters that give a float tensor or
    raise. *)
Class Utils := {
  load_elmo_weights : value → result (tensor elem);
  load_glove_embeddings : value → result (tensor elem)
}.

Context `{!Backend} `{!Utils}.

(** ** Python built-ins *)

(** [o.name]; of a layer of torch.nn, the attributes that hold its
    sizes. *)
Definition getattr (o : value) (name : string) : M value :=
  match o with
  | VObj _ attrs =>
      match attrs !! name with
      | Some v => mret v
      | None => raise AttributeError
      end
  | VEmbedding n d p _ =>
      if String.eqb name "num_embeddings" then mret (VInt n)
      else if String.eqb name "embedding_dim" then mret (VInt d)
      else if String.eqb name "padding_idx" then
        mret (match p with Some i => VInt i | None => VNone end)
      else raise AttributeError
  | VRNN _ i h l _ =>
      if String.eqb name "input_size" then mret (VInt i)
      else if String.eqb name "hidden_size" then mret (VInt h)
      else if String.eqb name "num_layers" then mret (VInt l)
      else raise AttributeError
  | VLinear i o =>
      if String.eqb name "in_features" then mret (VInt i)
      else if String.eqb name "out_features" then mret (VInt o)
      else raise AttributeError
  | _ => raise AttributeError
  end.

(** [self.name] on the attribute map of the instance under construction. *)
Definition attr (self : gmap string value) (name : string) : M value :=
  match self !! name with
  | Some v => mret v
  | None => raise AttributeError
  end.


(** [len(v)]; a [PackedSequence] is a tuple of four fields. *)
Definition len (v : value) : M value :=
  match v with
  | VList l | VTuple l => mret (VInt (Z.of_nat (length l)))
  | VStr s => mret (VInt (Z.of_nat (String.length s)))
  | VTensor (Tensor (n :: _) _) | VLong (Tensor (n :: _) _) =>
      mret (VInt (Z.of_nat n))
  | VPacked _ | VPackedLong _ => mret (VInt 4)
  | _ => raise TypeError
  end.

(** [a, b = v] *)
Definition unpack2 (v : value) : M (value * value) :=
  match v with
  | VTuple [a; b] | VList [a; b] => mret (a, b)
  | VTuple _ | VList _ => raise ValueError
  | VStr (String a (String b EmptyString)) =>
      mret (VStr (String a EmptyString), VStr (String b EmptyString))
  | VStr _ => raise ValueError
  | VTensor t => p ← lift (t_unpack2 t); mret (VTensor p.1, VTensor p.2)
  | VLong t => p ← lift (t_unpack2 t); mret (VLong p.1, VLong p.2)
  | VPacked _ | VPackedLong _ => raise ValueError
  | _ => raise TypeError
  end.

(** [v[i]] for an integer [i]; the fields of a [PackedSequence] are not
    modelled. *)
Definition getitem (v : value) (i : Z) : M value :=
  match v with
  | VTensor t => r ← lift (t_index t i); mret (VTensor r)
  | VLong t => r ← lift (t_index t i); mret (VLong r)
  | VList l | VTuple l =>
      match index_pos (length l) i ≫= (l !!.) with
      | Some x => mret x
      | None => raise IndexError
      end
  | VStr s =>
      match index_pos (String.length s) i ≫= (λ j, String.get j s) with
      | Some c => mret (VStr (String c EmptyString))
      | None => raise IndexError
      end
  | VPacked _ | VPackedLong _ => raise IndexError
  | _ => raise TypeError
  end.

(** The integers of a list of values, when all of them are integers. *)
Definition ints (vs : list value) : option (list Z) :=
  mapM (λ v, match v with VInt n => Some n | _ => None end) vs.

(** ** Tensor methods *)

(** [v.view(sizes)] *)
Definition Tensor_view (v : value) (sizes : list value) : M value :=
  match v with
  | VTensor t =>
      match ints sizes with
      | Some dims => r ← lift (t_view t dims); mret (VTensor r)
      | None => raise TypeError
      end
  | VLong t =>
      match ints sizes with
      | Some dims => r ← lift (t_view t dims); mret (VLong r)
      | None => raise TypeError
      end
  | _ => raise AttributeError
  end.

(** [v.transpose(0, 1)] *)
Definition Tensor_transpose_0_1 (v : value) : M value :=
  match v with
  | VTensor t => r ← lift (t_transpose01 t); mret (VTensor r)
  | VLong t => r ← lift (t_transpose01 t); mret (VLong r)
  | _ => raise AttributeError
  end.

(** [v.contiguous()]: the layout in memory is not modelled, the entries
    are always in row-major order. *)
Definition Tensor_contiguous (v : value) : M value :=
  match v with
  | VTensor _ | VLong _ => mret v
  | _ => raise AttributeError
  end.

(** [torch.cat(ts, dim=dim)] on float tensors *)
Definition torch_cat (ts : list (tensor elem)) (dim : Z) : M value :=
  emit (Torch_cat (VTensor <$> ts) dim);;
  r ← lift (t_cat ts dim);
  mret (VTensor r).

(** [pack_padded_sequence(input, lengths, batch_first=..., enforce_sorted=...)];
    the lengths are a list of integers or a one-dimensional integer tensor. *)
Definition lengths_of (v : value) : option (list Z) :=
  match v with
  | VList l | VTuple l => ints l
  | VLong (Tensor [n] d) => if (length d =? n)%nat then Some d else None
  | _ => None
  end.

Definition pack_padded_sequence (input lengths : value)
    (batch_first enforce_sorted : bool) : M value :=
  emit (Pack_padded_sequence input lengths batch_first enforce_sorted);;
  match lengths_of lengths with
  | None => raise TypeError
  | Some ls =>
      match input with
      | VTensor t =>
          p ← lift (t_pack t ls batch_first enforce_sorted); mret (VPacked p)
      | VLong t =>
          p ← lift (t_pack t ls batch_first enforce_sorted);
          mret (VPackedLong p)
      | _ => raise (if enforce_sorted then TypeError else AttributeError)
      end
  end.

(** ** torch.nn: constructors

    Each constructor checks its arguments as PyTorch 2 does: a size that
    is not an integer is a TypeError, a size out of range a ValueError, a
    RuntimeError or a failed assertion. *)

(** [nn.Embedding(num_embeddings, embedding_dim, padding_idx=padding_idx)]:
    the weight has one row per index, drawn at random, and the row at
    [padding_idx] is then filled with zeros. *)
Definition nn_Embedding (num_embeddings embedding_dim padding_idx : value)
    : M value :=
  emit (New_Embedding num_embeddings embedding_dim padding_idx);;
  match num_embeddings, embedding_dim with
  | VInt n, VInt d =>
      pad ← match padding_idx with
            | VNone => mret None
            | VInt p =>
                if 0 <? p then
                  if p <? n then mret (Some p) else raise AssertionError
                else if p <? 0 then
                  if - n <=? p then mret (Some (n + p))
                  else raise AssertionError
                else mret (Some 0)
            | _ => raise TypeError
            end;
      if (n <? 0) || (d <? 0) then raise RuntimeError else
      let weight := tab (Z.to_nat n) (λ i, tab (Z.to_nat d) (normal_ i)) in
      match pad with
      | None => mret (VEmbedding n d None weight)
      | Some q =>
          if q <? n then
            mret (VEmbedding n d (Some q)
                    (<[Z.to_nat q := replicate (Z.to_nat d) zero]> weight))
          else raise IndexError
      end
  | _, _ => raise TypeError
  end.

(** [nn.GRU] and [nn.LSTM] [(input_size, hidden_size, num_layers,
    bidirectional=...)]: the constructor checks, in this order, that
    [input_size] is positive, that [hidden_size] is an integer and
    positive, and that [num_layers] is positive; a size out of range is a
    ValueError, one that is not an integer a TypeError. *)
Definition nn_RNN (unit : rnn_unit) (input_size hidden_size num_layers : value)
    (bidirectional : bool) : M value :=
  emit (New_RNN unit input_size hidden_size num_layers bidirectional);;
  match input_size with
  | VInt i =>
      if i <=? 0 then raise ValueError else
      match hidden_size with
      | VInt h =>
          if h <=? 0 then raise ValueError else
          match num_layers with
          | VInt l =>
              if l <=? 0 then raise ValueError
              else mret (VRNN unit i h l bidirectional)
          | _ => raise TypeError
          end
      | _ => raise TypeError
      end
  | _ => raise TypeError
  end.

Definition nn_GRU := nn_RNN GRU.
Definition nn_LSTM := nn_RNN LSTM.

(** [nn.Linear(in_features, out_features)] *)
Definition nn_Linear (in_features out_features : value) : M value :=
  emit (New_Linear in_features out_features);;
  match in_features, out_features with
  | VInt i, VInt o =>
      if (i <? 0) || (o <? 0) then raise RuntimeError
      else mret (VLinear i o)
  | _, _ => raise TypeError
  end.

(** [nn.ReLU()], [nn.Tanh()], [nn.GELU()] *)
Definition nn_Activation (a : activation) : M value :=
  emit (New_Activation a);; mret (VActivation a).

Definition nn_ReLU := nn_Activation ReLU.
Definition nn_Tanh := nn_Activation Tanh.
Definition nn_GELU := nn_Activation GELU.

(** [nn.CrossEntropyLoss()] *)
Definition nn_CrossEntropyLoss : M value :=
  emit New_CrossEntropyLoss;; mret VCrossEntropyLoss.

(** ** torch.nn: applying a layer to one argument *)

(** An activation works on a tensor, entry by entry: on an integer tensor
    ReLU stays in the integers, Tanh converts and GELU is not defined.  On
    anything that is not a tensor, [None] included, the function behind the
    layer raises TypeError. *)
Definition Activation_forward (a : activation) (x : value) : result value :=
  match x with
  | VTensor t => Ok (VTensor (Tensor (shape t) (act_fn a <$> data t)))
  | VLong t =>
      match a with
      | ReLU => Ok (VLong (Tensor (shape t) (Z.max 0 <$> data t)))
      | Tanh =>
          Ok (VTensor (Tensor (shape t) ((λ i, act_fn a (of_int i)) <$> data t)))
      | GELU => Raise RuntimeError
      end
  | _ => Raise TypeError
  end.

(** An embedding table takes an integer tensor and replaces each index by
    its row of the weight. *)
Definition Embedding_forward (n d : Z) (weight : list (list elem)) (x : value)
    : result value :=
  match x with
  | VLong t =>
      if forallb (λ i, (0 <=? i) && (i <? n)) (data t) then
        Ok (VTensor (Tensor (shape t ++ [Z.to_nat d])
              (flat_map (λ i, default [] (weight !! Z.to_nat i)) (data t))))
      else Raise IndexError
  | VTensor _ => Raise RuntimeError
  | _ => Raise TypeError
  end.

(** A recurrent layer takes a packed batch, a padded batch of sizes
    [T; B; input_size] or one sequence of sizes [T; input_size].  It gives
    the pair of its output and its final state: for a GRU the hidden state,
    of sizes [directions * num_layers; B; hidden_size], for an LSTM the pair
    of the hidden and the cell state, both of these sizes.  It refuses a
    padded batch or a sequence without time steps, and a packed batch
    whose data is shorter than the steps it announces. *)
Definition RNN_forward (m : value) (unit : rnn_unit) (i h l : Z) (bi : bool)
    (x : value) : result value :=
  let dirs := if bi then 2%nat else 1%nat in
  let H := Z.to_nat h in
  let L := Z.to_nat l in
  let state (st : (nat → nat → nat → elem) → tensor elem) :=
    match unit with
    | GRU => VTensor (st (rnn_h m x))
    | LSTM => VTuple [VTensor (st (rnn_h m x)); VTensor (st (rnn_c m x))]
    end in
  match x with
  | VPacked p =>
      if bool_decide (features p = [Z.to_nat i]) then
        if bool_decide (steps p = length <$> seqs p) then
          Ok (VTuple
                [VPacked (Packed [(dirs * H)%nat] (steps p)
                   (imap (λ b s, tab (length s)
                                   (λ t, tab (dirs * H) (rnn_out m x b t)))
                         (seqs p)));
                 state (tensor3 (dirs * L) (length (seqs p)) H)])
        else Raise RuntimeError
      else Raise RuntimeError
  | VTensor (Tensor [T; B; f] _) =>
      if (f =? Z.to_nat i)%nat then
        if (T =? 0)%nat then Raise RuntimeError else
        Ok (VTuple
              [VTensor (tensor3 T B (dirs * H) (λ t b, rnn_out m x b t));
               state (tensor3 (dirs * L) B H)])
      else Raise RuntimeError
  | VTensor (Tensor [T; f] _) =>
      if (f =? Z.to_nat i)%nat then
        if (T =? 0)%nat then Raise RuntimeError else
        Ok (VTuple
              [VTensor (tensor2 T (dirs * H) (rnn_out m x 0%nat));
               state (λ g, tensor2 (dirs * L) H (λ ld, g ld 0%nat))])
      else Raise RuntimeError
  | VTensor _ | VLong _ | VPackedLong _ => Raise RuntimeError
  | _ => Raise TypeError
  end.

(** A linear layer takes a float tensor whose last size is [in_features]. *)
Definition Linear_forward (m : value) (i o : Z) (x : value) : result value :=
  match x with
  | VTensor t =>
      match last (shape t) with
      | Some f =>
          if (f =? Z.to_nat i)%nat then
            let s := removelast (shape t) ++ [Z.to_nat o] in
            Ok (VTensor (Tensor s (tab (numel s) (linear_out m x))))
          else Raise RuntimeError
      | None => Raise RuntimeError
      end
  | VLong _ => Raise RuntimeError
  | _ => Raise TypeError
  end.

(** [m(x)] for a layer of torch.nn.  The loss takes two arguments. *)
Definition nn_forward (m x : value) : result value :=
  match m with
  | VActivation a => Activation_forward a x
  | VEmbedding n d _ w => Embedding_forward n d w x
  | VRNN u i h l b => RNN_forward m u i h l b x
  | VLinear i o => Linear_forward m i o x
  | _ => Raise TypeError
  end.

(** ** model.py

    The classes come in the order of their dependencies.  The arguments
    documented as sizes are integers, the two selectors are strings;
    [dropout] is passed along and never read.  The attribute map [self]
    starts empty, as [super().__init__()] leaves it. *)

(** [load_elmo_weights(X)] and [load_glove_embeddings(X)] of utils.py *)
Definition utils_load_elmo_weights (X : value) : M (tensor elem) :=
  emit (Load_elmo_weights X);; lift (load_elmo_weights X).

Definition utils_load_glove_embeddings (X : value) : M (tensor elem) :=
  emit (Load_glove_embeddings X);; lift (load_glove_embeddings X).

(** [SharedBiRNN.forward(self, X)]: the body ends after the assignment of
    [word_embeddings], so the call evaluates to [None]. *)
Definition SharedBiRNN_forward (self X : value) : M value :=
  elmo_embeddings ← utils_load_elmo_weights X;
  glove_embeddings ← utils_load_glove_embeddings X;
  word_embeddings ← torch_cat [elmo_embeddings; glove_embeddings] 2;
  mret VNone.

(** [m(x)]: [nn.Module.__call__] runs [forward].  Of the classes of
    model.py, SharedBiRNN has a [forward] of one argument, that of CharRNN
    wants two, and the others inherit the one that raises
    NotImplementedError. *)
Definition call (m x : value) : M value :=
  emit (Call m x);;
  match m with
  | VObj cls _ =>
      if String.eqb cls "SharedBiRNN" then SharedBiRNN_forward m x
      else if String.eqb cls "CharRNN" then raise TypeError
      else raise NotImplementedError
  | _ => lift (nn_forward m x)
  end.

(** [CharRNN.__init__(self, cemb, num_layers=1, recurrent_unit="gru")] *)
Definition CharRNN (cemb : value) (num_layers : Z) (recurrent_unit : string)
    : M value :=
  let self : gmap string value := ∅ in
  let self := <["cemb" := cemb]> self in
  birnn ← (if String.eqb recurrent_unit "gru" then
             input_size ← getattr cemb "embedding_dim";
             hidden_size ← getattr cemb "embedding_dim";
             nn_GRU input_size hidden_size (VInt num_layers) true
           else
             input_size ← getattr cemb "embedding_dim";
             hidden_size ← getattr cemb "embedding_dim";
             nn_LSTM input_size hidden_size (VInt num_layers) true);
  let self := <["birnn" := birnn]> self in
  mret (VObj "CharRNN" self).

(** [CharRNN.forward(self, padded_chars, char_lengths)] *)
Definition CharRNN_forward (self padded_chars char_lengths : value) : M value :=
  B ← len char_lengths;
  cemb ← getattr self "cemb";
  embedded ← call cemb padded_chars;
  packed ← pack_padded_sequence embedded char_lengths true false;
  birnn ← getattr self "birnn";
  out ← call birnn packed;
  '(_, state) ← unpack2 out;
  '(final_h, _) ← unpack2 state;
  birnn ← getattr self "birnn";
  num_layers ← getattr birnn "num_layers";
  birnn ← getattr self "birnn";
  hidden_size ← getattr birnn "hidden_size";
  final_h ← Tensor_view final_h [num_layers; VInt 2; B; hidden_size];
  final_h ← getitem final_h (-1);
  cembs ← Tensor_transpose_0_1 final_h;
  cembs ← Tensor_contiguous cembs;
  cembs ← Tensor_view cembs [B; VInt (-1)];
  mret cembs.

(** [SharedRNN.__init__] *)
Definition SharedRNN
    (num_word_types shared_layer_size num_char_types word_dim char_dim
     hidden_dim : Z) (dropout : value) (num_layers : Z)
    (recurrent_unit : string) : M value :=
  let self : gmap string value := ∅ in
  let self := <["PAD_ind" := VInt 0]> self in
  padding_idx ← attr self "PAD_ind";
  wemb ← nn_Embedding (VInt num_word_types) (VInt word_dim) padding_idx;
  let self := <["wemb" := wemb]> self in
  padding_idx ← attr self "PAD_ind";
  cemb ← nn_Embedding (VInt num_char_types) (VInt char_dim) padding_idx;
  let self := <["cemb" := cemb]> self in
  let input_dim := word_dim + 2 * char_dim in
  cemb ← attr self "cemb";
  charRNN ← CharRNN cemb 1 recurrent_unit;
  let self := <["charRNN" := charRNN]> self in
  wordRNN ← (if String.eqb recurrent_unit "gru" then
               nn_GRU (VInt input_dim) (VInt hidden_dim) (VInt num_layers) true
             else
               nn_LSTM (VInt input_dim) (VInt hidden_dim) (VInt num_layers) true);
  let self := <["wordRNN" := wordRNN]> self in
  mret (VObj "SharedRNN" self).

(** [NERSpecificRNN.__init__]: an [activation_type] that is none of the
    three names takes no branch. *)
Definition NERSpecificRNN
    (shared_layer_size num_tag_types hidden_dim : Z) (dropout : value)
    (num_layers : Z) (activation_type recurrent_unit : string) : M value :=
  let self : gmap string value := ∅ in
  birnn ← (if String.eqb recurrent_unit "gru" then
             nn_GRU (VInt shared_layer_size) (VInt hidden_dim)
                    (VInt num_layers) true
           else
             nn_LSTM (VInt shared_layer_size) (VInt hidden_dim)
                     (VInt num_layers) true);
  let self := <["birnn" := birnn]> self in
  self ← (if String.eqb activation_type "relu" then
            FFNNe1 ← nn_ReLU; mret (<["FFNNe1" := FFNNe1]> self)
          else if String.eqb activation_type "tanh" then
            FFNNe1 ← nn_Tanh; mret (<["FFNNe1" := FFNNe1]> self)
          else if String.eqb activation_type "gelu" then
            FFNNe1 ← nn_GELU; mret (<["FFNNe1" := FFNNe1]> self)
          else mret self);
  FFNNe2 ← nn_Linear (VInt hidden_dim) (VInt num_tag_types);
  let self := <["FFNNe2" := FFNNe2]> self in
  mret (VObj "NERSpecificRNN" self).

(** [RESpecificRNN.__init__]: the activation layer is applied to [input_],
    which is [None], and the result of the call is what is assigned to
    [FFNNr1]; [nn.Linear] then gets that attribute as its [in_features]. *)
Definition RESpecificRNN
    (shared_layer_size num_rel_types hidden_dim : Z) (dropout : value)
    (num_layers : Z) (activation_type recurrent_unit : string) : M value :=
  let self : gmap string value := ∅ in
  let input_ := VNone in
  self ← (if String.eqb activation_type "relu" then
            layer ← nn_ReLU; FFNNr1 ← call layer input_;
            mret (<["FFNNr1" := FFNNr1]> self)
          else if String.eqb activation_type "tanh" then
            layer ← nn_Tanh; FFNNr1 ← call layer input_;
            mret (<["FFNNr1" := FFNNr1]> self)
          else if String.eqb activation_type "gelu" then
            layer ← nn_GELU; FFNNr1 ← call layer input_;
            mret (<["FFNNr1" := FFNNr1]> self)
          else mret self);
  in_features ← attr self "FFNNr1";
  FFNNr2 ← nn_Linear in_features (VInt num_rel_types);
  let self := <["FFNNr2" := FFNNr2]> self in
  mret (VObj "RESpecificRNN" self).

(** [MTLArchitecture.__init__] *)
Definition MTLArchitecture
    (num_word_types shared_layer_size num_char_types word_dim char_dim
     hidden_dim : Z) (dropout : value)
    (num_layers num_tag_types num_rel_types : Z)
    (activation_type recurrent_unit : string) : M value :=
  let self : gmap string value := ∅ in
  shared_layers ← SharedRNN num_word_types shared_layer_size num_char_types
                     word_dim char_dim hidden_dim dropout num_layers
                     recurrent_unit;
  let self := <["shared_layers" := shared_layers]> self in
  ner_layers ← NERSpecificRNN shared_layer_size num_tag_types hidden_dim
                  dropout num_layers activation_type recurrent_unit;
  let self := <["ner_layers" := ner_layers]> self in
  re_layers ← RESpecificRNN shared_layer_size num_rel_types hidden_dim
                 dropout num_layers activation_type recurrent_unit;
  let self := <["re_layers" := re_layers]> self in
  loss ← nn_CrossEntropyLoss;
  let self := <["loss" := loss]> self in
  mret (VObj "MTLArchitecture" self).

(** The class attributes of SharedBiRNN. *)
Definition CharDim : Z := 32.
Definition ELMODim : Z := 1024.
Definition GloveDim : Z := 300.

(** [SharedBiRNN.__init__(self, num_word_types, num_char_types,
    num_layers=1, recurrent_unit="gru")].  The body calls the global name
    [CharBiRNN], which Python looks up when the call is evaluated; the body
    is given here for any binding of that name. *)
Definition SharedBiRNN_with (CharBiRNN : value → Z → string → M value)
    (num_word_types num_char_types num_layers : Z) (recurrent_unit : string)
    : M value :=
  let self : gmap string value := ∅ in
  let self := <["Pad_ind" := VInt 0]> self in
  let word_dim := ELMODim + GloveDim + 2 * CharDim in
  padding_idx ← attr self "Pad_ind";
  wemb ← nn_Embedding (VInt num_word_types) (VInt word_dim) padding_idx;
  let self := <["wemb" := wemb]> self in
  padding_idx ← attr self "Pad_ind";
  cemb ← nn_Embedding (VInt num_char_types) (VInt CharDim) padding_idx;
  let self := <["cemb" := cemb]> self in
  cemb ← attr self "cemb";
  charRNN ← CharBiRNN cemb 1 recurrent_unit;
  let self := <["charRNN" := charRNN]> self in
  word_birnn ← (if String.eqb recurrent_unit "gru" then
                  nn_GRU (VInt word_dim) (VInt word_dim) (VInt num_layers) true
                else
                  nn_LSTM (VInt word_dim) (VInt word_dim) (VInt num_layers) true);
  let self := <["word_birnn" := word_birnn]> self in
  mret (VObj "SharedBiRNN" self).

(** model.py neither defines nor imports the name [CharBiRNN]: evaluating
    it raises NameError. *)
Definition CharBiRNN (cemb : value) (num_layers : Z) (recurrent_unit : string)
    : M value :=
  raise NameError.

(** [SharedBiRNN.__init__] as model.py runs it. *)
Definition SharedBiRNN : Z → Z → Z → string → M value :=
  SharedBiRNN_with CharBiRNN.

(** [NERSpecificBiRNN.__init__] *)
Definition NERSpecificBiRNN
    (num_rel_types num_tag_types hidden_dim : Z) (dropout : value)
    (num_layers : Z) (activation_type recurrent_unit : string) : M value :=
  let self : gmap string value := ∅ in
  let input_ := VNone in
  self ← (if String.eqb activation_type "relu" then
            layer ← nn_ReLU; FFNNe1 ← call layer input_;
            mret (<["FFNNe1" := FFNNe1]> self)
          else if String.eqb activation_type "tanh" then
            layer ← nn_Tanh; FFNNe1 ← call layer input_;
            mret (<["FFNNe1" := FFNNe1]> self)
          else if String.eqb activation_type "gelu" then
            layer ← nn_GELU; FFNNe1 ← call layer input_;
            mret (<["FFNNe1" := FFNNe1]> self)
          else mret self);
  in_features ← attr self "FFNNe1";
  FFNNe2 ← nn_Linear in_features (VInt num_tag_types);
  let self := <["FFNNe2" := FFNNe2]> self in
  mret (VObj "NERSpecificBiRNN" self).

(** [RESpecificBiRNN.__init__] *)
Definition RESpecificBiRNN
    (num_rel_types hidden_dim : Z) (dropout : value) (num_layers : Z)
    (activation_type recurrent_unit : string) : M value :=
  let self : gmap string value := ∅ in
  let input_ := VNone in
  self ← (if String.eqb activation_type "relu" then
            layer ← nn_ReLU; FFNNr1 ← call layer input_;
            mret (<["FFNNr1" := FFNNr1]> self)
          else if String.eqb activation_type "tanh" then
            layer ← nn_Tanh; FFNNr1 ← call layer input_;
            mret (<["FFNNr1" := FFNNr1]> self)
          else if String.eqb activation_type "gelu" then
            layer ← nn_GELU; FFNNr1 ← call layer input_;
            mret (<["FFNNr1" := FFNNr1]> self)
          else mret self);
  in_features ← attr self "FFNNr1";
  FFNNr2 ← nn_Linear in_features (VInt num_rel_types);
  let self := <["FFNNr2" := FFNNr2]> self in
  mret (VObj "RESpecificBiRNN" self).

End Model.

Arguments value : clear implicits.
Arguments event : clear implicits.
Arguments M : clear implicits.
Arguments Backend : clear implicits.
Arguments Utils : clear implicits.
#[export] Existing Instance M_ret.
#[export] Existing Instance M_bind.

(** ** Names used in the statements *)

(** The unit that the test [recurrent_unit == "gru"] selects. *)
Definition selected_unit (recurrent_unit : string) : rnn_unit :=
  if String.eqb recurrent_unit "gru" then GRU else LSTM.

(** The three supported values of [activation_type]. *)
Definition activation_name (a : activation) : string :=
  match a with ReLU => "relu" | Tanh => "tanh" | GELU => "gelu" end.

Definition supported (activation_type : string) : Prop :=
  ∃ a, activation_type = activation_name a.

(** What is expected of the layers that a constructor builds: a
    recurrent layer is bidirectional and of the unit that [recurrent_unit]
    selects, an embedding table has [padding_idx=0]. *)
Definition layer_as_specified {elem} (recurrent_unit : string)
    (ev : event elem) : Prop :=
  match ev with
  | New_RNN u _ _ _ b => b = true ∧ u = selected_unit recurrent_unit
  | New_Embedding _ _ p => p = VInt 0
  | _ => True
  end.

(** The weight of a table of [n] rows of size [d] built with
    [padding_idx=0]. *)
Definition padded_weight {elem} `{!Backend elem} (n d : Z) : list (list elem) :=
  <[0%nat := replicate (Z.to_nat d) zero]>
    (tab (Z.to_nat n) (λ i, tab (Z.to_nat d) (normal_ i))).

(** A run that ends in an exception. *)
Definition raises {elem A} (m : M elem A) : Prop :=
  ∃ e, outcome m = Raise e.

(** ** A small concrete backend

    Scalars are integers that encode where an entry comes from; the two
    loaders give a batch of one sentence of two words, with ELMo vectors of
    size 2 and GloVe vectors of size 1. *)
#[export] Instance sample_backend : Backend Z := {|
  zero := 0;
  of_int := λ i, i;
  normal_ := λ i j, Z.of_nat (10 * i + j + 1);
  act_fn := λ _ x, x;
  rnn_out := λ _ _ b t u, Z.of_nat (100 * b + 10 * t + u);
  rnn_h := λ _ _ ld b u, 1000 + Z.of_nat (100 * ld + 10 * b + u);
  rnn_c := λ _ _ ld b u, 2000 + Z.of_nat (100 * ld + 10 * b + u);
  linear_out := λ _ _ k, Z.of_nat k
|}.

#[export] Instance sample_utils : Utils Z := {|
  load_elmo_weights := λ _, Ok (tensor3 1 2 2 (λ _ j k, Z.of_nat (10 * j + k)));
  load_glove_embeddings :=
    λ _, Ok (tensor3 1 2 1 (λ _ j k, 500 + Z.of_nat (10 * j + k)))
|}.

(** Loaders that check their argument: ELMo wants a list, GloVe a list
    that is not empty. *)
Definition sample_utils_checking : Utils Z := {|
  load_elmo_weights := λ X,
    match X with
    | VList _ => Ok (tensor3 1 2 2 (λ _ j k, Z.of_nat (10 * j + k)))
    | _ => Raise TypeError
    end;
  load_glove_embeddings := λ X,
    match X with
    | VList (_ :: _) =>
        Ok (tensor3 1 2 1 (λ _ j k, 500 + Z.of_nat (10 * j + k)))
    | VList [] => Raise IndexError
    | _ => Raise TypeError
    end
|}.

(** A table of four characters with vectors of size 3, a batch of two
    padded words of lengths 2 and 3, and the CharRNN built on the table
    with one layer of each unit. *)
Definition sample_cemb : value Z :=
  VEmbedding 4 3 (Some 0) [[0; 0; 0]; [11; 12; 13]; [21; 22; 23]; [31; 32; 33]].

Definition sample_chars : value Z :=
  VLong (Tensor [2%nat; 3%nat] [1; 2; 0; 3; 1; 2]).

Definition sample_lengths : value Z := VList [VInt 2; VInt 3].

(** A batch of one sentence of two words. *)
Definition sample_sentences : value Z :=
  VList [VList [VStr "Ada"; VStr "writes"]].

Definition sample_CharRNN (unit : rnn_unit) : value Z :=
  VObj "CharRNN" (<["birnn" := VRNN unit 3 3 1 true]>
                    (<["cemb" := sample_cemb]> ∅)).

(** * Properties *)

(** ** Blocks of a flat list *)

Section Blocks.
Context {A : Type}.
Implicit Types (l : list A) (g : nat → list A).

Lemma slice_slice l (o k o' k' : nat) :
  (o + k ≤ k')%nat → slice o k (slice o' k' l) = slice (o' + o) k l.
Proof.
  intros Hk. unfold slice.
  replace k' with (o + (k' - o))%nat by lia.
  rewrite <- take_drop_commute, take_take, drop_drop.
  f_equal. lia.
Qed.

Lemma length_flat_map_seq g (k : nat) (n s : nat) :
  (∀ j, length (g j) = k) → length (flat_map g (seq s n)) = (n * k)%nat.
Proof.
  intros Hg. revert s. induction n as [|n IH]; intros s; [done|].
  simpl. by rewrite length_app, Hg, IH.
Qed.

(** The [i]-th block of a list made of [n] blocks of the same length. *)
Lemma slice_flat_map_seq g (k : nat) (n s i : nat) :
  (∀ j, length (g j) = k) → (i < n)%nat →
  slice (i * k) k (flat_map g (seq s n)) = g (s + i)%nat.
Proof.
  intros Hg. revert s i. induction n as [|n IH]; intros s i Hi; [lia|].
  simpl. destruct i as [|i].
  - unfold slice. change (0 * k)%nat with 0%nat.
    rewrite drop_0, take_app_length' by done. f_equal. lia.
  - unfold slice. change (S i * k)%nat with (k + i * k)%nat.
    rewrite drop_app_add' by done.
    fold (slice (i * k) k (flat_map g (seq (S s) n))).
    rewrite IH by lia. f_equal. lia.
Qed.

Lemma length_tab (f : nat → A) (n : nat) : length (tab n f) = n.
Proof. unfold tab. by rewrite length_fmap, length_seq. Qed.

(** The row at [i, j] of a tensor of three dimensions. *)
Lemma slice_tensor3 (f : nat → nat → nat → A) (n1 n2 n3 i j : nat) :
  (i < n1)%nat → (j < n2)%nat →
  slice ((i * n2 + j) * n3) n3 (data (tensor3 n1 n2 n3 f)) = tab n3 (f i j).
Proof.
  intros Hi Hj. simpl.
  replace ((i * n2 + j) * n3)%nat with (i * (n2 * n3) + j * n3)%nat by lia.
  rewrite <- (slice_slice _ (j * n3) n3 (i * (n2 * n3)) (n2 * n3)) by nia.
  rewrite slice_flat_map_seq; [|intros; apply length_flat_map_seq|done].
  - rewrite slice_flat_map_seq; [done| |done]. intros. apply length_tab.
  - intros. apply length_tab.
Qed.

(** [torch.cat] along the last of three dimensions: block by block, the
    row of the first tensor followed by the row of the second. *)
Lemma t_cat_last_dim (B T e g : nat) (d1 d2 : list A) :
  t_cat [Tensor [B; T; e] d1; Tensor [B; T; g] d2] 2 =
  Ok (Tensor [B; T; (e + g)%nat]
        (flat_map (λ w, slice (w * e) e d1 ++ slice (w * g) g d2)
           (seq 0 (B * T)))).
Proof.
  unfold t_cat. rewrite !filter_cons_True by done. rewrite filter_nil.
  cbn [shape data length]. change (index_pos 3 2) with (Some 2%nat).
  cbv beta iota. unfold cat_compatible. cbn [forallb take drop length].
  rewrite Nat.eqb_refl, !bool_decide_eq_true_2 by done.
  cbn [andb fmap list_fmap shape lookup list_lookup default sum_list
       sum_list_with list_insert insert numel foldr].
  rewrite !Nat.mul_1_r, Nat.add_0_r. do 2 f_equal.
  apply flat_map_ext. intros w.
  cbn [flat_map shape data drop numel foldr].
  by rewrite !Nat.mul_1_r, app_nil_r.
Qed.

Lemma flat_map_seq_ext g g' (n s : nat) :
  (∀ j, (s ≤ j < s + n)%nat → g j = g' j) →
  flat_map g (seq s n) = flat_map g' (seq s n).
Proof.
  revert s. induction n as [|n IH]; intros s Hg; [done|].
  simpl. rewrite Hg by lia. f_equal. apply IH. intros. apply Hg. lia.
Qed.

End Blocks.


Section Proofs.
Context {elem : Type} `{!Backend elem} `{!Utils elem}.

(** ** The monad *)

Lemma outcome_bind {A B} (m : M elem A) (k : A → M elem B) :
  outcome (m ≫= k) =
  match outcome m with Ok a => outcome (k a) | Raise e => Raise e end.
Proof.
  destruct m as [t [a|e]]; simpl; [|done]. by destruct (k a).
Qed.

Lemma trace_bind {A B} (m : M elem A) (k : A → M elem B) :
  trace (m ≫= k) =
  trace m ++ match outcome m with Ok a => trace (k a) | Raise _ => [] end.
Proof.
  destruct m as [t [a|e]]; simpl; [|by rewrite app_nil_r]. by destruct (k a).
Qed.

Lemma bind_ok {A B} t (a : A) (m : M elem A) (k : A → M elem B) :
  m = (t, Ok a) → m ≫= k = (t ++ trace (k a), outcome (k a)).
Proof. intros ->. simpl. by destruct (k a). Qed.

Lemma ret_bind {A B} (a : A) (k : A → M elem B) : mret a ≫= k = k a.
Proof. unfold mret, mbind, M_ret, M_bind, ret, bind. by destruct (k a). Qed.

Lemma ok_bind {A B} t (a : A) (k : A → M elem B) :
  (t, Ok a) ≫= k = (t ++ trace (k a), outcome (k a)).
Proof. by apply bind_ok. Qed.

Lemma raise_bind {A B} t e (k : A → M elem B) :
  (t, Raise e) ≫= k = (t, Raise e).
Proof. reflexivity. Qed.

Lemma raises_bind_l {A B} (m : M elem A) (k : A → M elem B) :
  raises m → raises (m ≫= k).
Proof. intros [e He]. exists e. by rewrite outcome_bind, He. Qed.

Lemma raises_ok_bind {A B} t (a : A) (k : A → M elem B) :
  raises (k a) → raises ((t, Ok a) ≫= k).
Proof. intros [e He]. exists e. by rewrite ok_bind. Qed.

Lemma raises_bind_r {A B} (m : M elem A) (k : A → M elem B) :
  (∀ a, outcome m = Ok a → raises (k a)) → raises (m ≫= k).
Proof.
  intros Hk. unfold raises. rewrite outcome_bind.
  destruct (outcome m) as [a|e] eqn:Hm; [by apply Hk | by exists e].
Qed.

Lemma Forall_trace_bind {A B} (P : event elem → Prop)
    (m : M elem A) (k : A → M elem B) :
  Forall P (trace m) → (∀ a, outcome m = Ok a → Forall P (trace (k a))) →
  Forall P (trace (m ≫= k)).
Proof.
  intros Hm Hk. rewrite trace_bind. apply Forall_app. split; [done|].
  destruct (outcome m) as [a|e]; [by apply Hk | constructor].
Qed.

(** ** The layers of torch.nn *)

Lemma nn_RNN_ok (u : rnn_unit) (i h l : Z) (b : bool) :
  0 < i → 0 < h → 0 < l →
  nn_RNN (elem := elem) u (VInt i) (VInt h) (VInt l) b =
  ([New_RNN u (VInt i) (VInt h) (VInt l) b], Ok (VRNN u i h l b)).
Proof.
  intros Hi Hh Hl. unfold nn_RNN.
  destruct (Z.leb_spec i 0); [lia|]. destruct (Z.leb_spec h 0); [lia|].
  destruct (Z.leb_spec l 0); [lia|]. reflexivity.
Qed.

Lemma selected_rnn (r : string) (i h l : value elem) :
  (if String.eqb r "gru" then nn_GRU i h l true else nn_LSTM i h l true) =
  nn_RNN (selected_unit r) i h l true.
Proof. unfold selected_unit. by destruct (String.eqb r "gru"). Qed.

Lemma nn_Linear_ok (i o : Z) :
  0 ≤ i → 0 ≤ o →
  nn_Linear (elem := elem) (VInt i) (VInt o) =
  ([New_Linear (VInt i) (VInt o)], Ok (VLinear i o)).
Proof.
  intros Hi Ho. unfold nn_Linear.
  destruct (Z.ltb_spec i 0); [lia|]. destruct (Z.ltb_spec o 0); [lia|].
  reflexivity.
Qed.

Lemma nn_Embedding_ok (n d : Z) :
  0 < n → 0 ≤ d →
  nn_Embedding (elem := elem) (VInt n) (VInt d) (VInt 0) =
  ([New_Embedding (VInt n) (VInt d) (VInt 0)],
   Ok (VEmbedding n d (Some 0) (padded_weight n d))).
Proof.
  intros Hn Hd. unfold nn_Embedding. simpl.
  destruct (Z.ltb_spec n 0); [lia|]. destruct (Z.ltb_spec d 0); [lia|].
  simpl. destruct (Z.ltb_spec 0 n); [|lia]. reflexivity.
Qed.

(** ** RESpecificRNN and its two copies *)

Lemma activation_name_cases (s : string) :
  (∃ a, s = activation_name a) ∨
  (String.eqb s "relu" = false ∧ String.eqb s "tanh" = false
   ∧ String.eqb s "gelu" = false).
Proof.
  destruct (String.eqb_spec s "relu") as [->|]; [left; by exists ReLU|].
  destruct (String.eqb_spec s "tanh") as [->|]; [left; by exists Tanh|].
  destruct (String.eqb_spec s "gelu") as [->|]; [left; by exists GELU|].
  by right.
Qed.

Lemma RESpecificRNN_supported (a : activation)
    (shared_layer_size num_rel_types hidden_dim : Z) (dropout : value elem)
    (num_layers : Z) (recurrent_unit : string) :
  RESpecificRNN shared_layer_size num_rel_types hidden_dim dropout num_layers
    (activation_name a) recurrent_unit =
  ([New_Activation a; Call (VActivation a) VNone], Raise TypeError).
Proof. by destruct a. Qed.

Lemma RESpecificRNN_unsupported
    (shared_layer_size num_rel_types hidden_dim : Z) (dropout : value elem)
    (num_layers : Z) (activation_type recurrent_unit : string) :
  ¬ supported activation_type →
  RESpecificRNN shared_layer_size num_rel_types hidden_dim dropout num_layers
    activation_type recurrent_unit = ([], Raise AttributeError).
Proof.
  intros Hs. destruct (activation_name_cases activation_type)
    as [?|(H1 & H2 & H3)]; [done|].
  unfold RESpecificRNN. by rewrite H1, H2, H3.
Qed.

Lemma RESpecificRNN_raises
    (shared_layer_size num_rel_types hidden_dim : Z) (dropout : value elem)
    (num_layers : Z) (activation_type recurrent_unit : string) :
  raises (RESpecificRNN shared_layer_size num_rel_types hidden_dim dropout
            num_layers activation_type recurrent_unit).
Proof.
  destruct (activation_name_cases activation_type) as [[a ->]|Hn].
  - exists TypeError. by rewrite RESpecificRNN_supported.
  - exists AttributeError. rewrite RESpecificRNN_unsupported; [done|].
    intros [a ->]. destruct Hn as (H1 & H2 & H3). by destruct a.
Qed.

(** C1. The spec's contract is that the network is constructed without an
    exception for a supported [activation_type].  The code does not meet
    it: for all arguments, supported activation or not, the construction
    of MTLArchitecture ends in an exception, because that of its RE head
    does. *)
Theorem MTLArchitecture_raises
    (num_word_types shared_layer_size num_char_types word_dim char_dim
     hidden_dim : Z) (dropout : value elem)
    (num_layers num_tag_types num_rel_types : Z)
    (activation_type recurrent_unit : string) :
  raises (MTLArchitecture num_word_types shared_layer_size num_char_types
            word_dim char_dim hidden_dim dropout num_layers num_tag_types
            num_rel_types activation_type recurrent_unit).
Proof.
  unfold MTLArchitecture.
  apply raises_bind_r; intros shared_layers _.
  apply raises_bind_r; intros ner_layers _.
  apply raises_bind_l, RESpecificRNN_raises.
Qed.

(** ** Successful constructions *)

Ltac msimpl :=
  repeat (rewrite ?ret_bind, ?ok_bind, ?raise_bind;
          cbn [trace outcome fst snd app mret M_ret ret]).

Lemma CharRNN_ok (n d : Z) (p : option Z) (w : list (list elem))
    (num_layers : Z) (recurrent_unit : string) :
  0 < d → 0 < num_layers →
  CharRNN (VEmbedding n d p w) num_layers recurrent_unit =
  ([New_RNN (selected_unit recurrent_unit) (VInt d) (VInt d)
      (VInt num_layers) true],
   Ok (VObj "CharRNN"
         (<["birnn" := VRNN (selected_unit recurrent_unit) d d num_layers true]>
            (<["cemb" := VEmbedding n d p w]> ∅)))).
Proof.
  intros Hd Hl. unfold CharRNN. simpl getattr.
  msimpl. rewrite selected_rnn, nn_RNN_ok by lia. by msimpl.
Qed.

Lemma attr_insert_eq (self : gmap string (value elem)) (name : string)
    (v : value elem) :
  attr (<[name := v]> self) name = mret v.
Proof. unfold attr. by rewrite lookup_insert_eq. Qed.

Lemma attr_insert_ne (self : gmap string (value elem)) (name name' : string)
    (v : value elem) :
  name ≠ name' → attr (<[name := v]> self) name' = attr self name'.
Proof. intros Hne. unfold attr. by rewrite lookup_insert_ne. Qed.

Lemma SharedRNN_ok
    (num_word_types shared_layer_size num_char_types word_dim char_dim
     hidden_dim : Z) (dropout : value elem) (num_layers : Z)
    (recurrent_unit : string) :
  0 < num_word_types → 0 < num_char_types → 0 ≤ word_dim → 0 < char_dim →
  0 < hidden_dim → 0 < num_layers →
  let u := selected_unit recurrent_unit in
  let wemb := VEmbedding num_word_types word_dim (Some 0)
                (padded_weight num_word_types word_dim) in
  let cemb := VEmbedding num_char_types char_dim (Some 0)
                (padded_weight num_char_types char_dim) in
  SharedRNN num_word_types shared_layer_size num_char_types word_dim char_dim
    hidden_dim dropout num_layers recurrent_unit =
  ([New_Embedding (VInt num_word_types) (VInt word_dim) (VInt 0);
    New_Embedding (VInt num_char_types) (VInt char_dim) (VInt 0);
    New_RNN u (VInt char_dim) (VInt char_dim) (VInt 1) true;
    New_RNN u (VInt (word_dim + 2 * char_dim)) (VInt hidden_dim)
      (VInt num_layers) true],
   Ok (VObj "SharedRNN"
         (<["wordRNN" := VRNN u (word_dim + 2 * char_dim) hidden_dim
                           num_layers true]>
         (<["charRNN" := VObj "CharRNN"
                           (<["birnn" := VRNN u char_dim char_dim 1 true]>
                              (<["cemb" := cemb]> ∅))]>
         (<["cemb" := cemb]>
         (<["wemb" := wemb]>
         (<["PAD_ind" := VInt 0]> ∅))))))).
Proof.
  intros Hw Hc Hwd Hcd Hh Hl u wemb cemb. unfold SharedRNN.
  rewrite attr_insert_eq. msimpl. rewrite nn_Embedding_ok by lia. msimpl.
  rewrite attr_insert_ne, attr_insert_eq by done. msimpl.
  rewrite nn_Embedding_ok by lia. msimpl.
  rewrite attr_insert_eq. msimpl. rewrite CharRNN_ok by lia. msimpl.
  rewrite selected_rnn, nn_RNN_ok by lia. by msimpl.
Qed.

Lemma NERSpecificRNN_supported_ok (a : activation)
    (shared_layer_size num_tag_types hidden_dim : Z) (dropout : value elem)
    (num_layers : Z) (recurrent_unit : string) :
  0 < shared_layer_size → 0 ≤ num_tag_types → 0 < hidden_dim →
  0 < num_layers →
  let u := selected_unit recurrent_unit in
  NERSpecificRNN shared_layer_size num_tag_types hidden_dim dropout
    num_layers (activation_name a) recurrent_unit =
  ([New_RNN u (VInt shared_layer_size) (VInt hidden_dim) (VInt num_layers) true;
    New_Activation a;
    New_Linear (VInt hidden_dim) (VInt num_tag_types)],
   Ok (VObj "NERSpecificRNN"
         (<["FFNNe2" := VLinear hidden_dim num_tag_types]>
         (<["FFNNe1" := VActivation a]>
         (<["birnn" := VRNN u shared_layer_size hidden_dim num_layers true]>
            ∅))))).
Proof.
  intros Hs Ht Hh Hl u. unfold NERSpecificRNN.
  rewrite selected_rnn, nn_RNN_ok by lia. msimpl.
  destruct a; simpl; rewrite nn_Linear_ok by lia; by msimpl.
Qed.

(** ** The layers that the constructors build *)

Ltac case_ifs :=
  repeat match goal with
         | |- context [if ?c then _ else _] => destruct c; simpl
         end.

Lemma trace_getattr (o : value elem) (name : string) : trace (getattr o name) = [].
Proof.
  destruct o; simpl; try done.
  - repeat case_match; done.
  - repeat case_match; done.
  - repeat case_match; done.
  - by destruct (attrs !! name).
Qed.

Lemma trace_attr (self : gmap string (value elem)) (name : string) :
  trace (attr self name) = [].
Proof. unfold attr. by destruct (self !! name). Qed.

Lemma trace_nn_RNN u (i h l : value elem) b :
  trace (nn_RNN u i h l b) = [New_RNN u i h l b].
Proof.
  unfold nn_RNN. destruct i; try done. simpl.
  destruct (_ <=? 0); [done|]. destruct h; try done. simpl.
  destruct (_ <=? 0); [done|]. destruct l; try done. simpl.
  by destruct (_ <=? 0).
Qed.

Lemma trace_nn_Linear (i o : value elem) :
  trace (nn_Linear i o) = [New_Linear i o].
Proof.
  unfold nn_Linear. destruct i, o; try done. simpl. by case_ifs.
Qed.

Lemma trace_nn_Embedding (n d p : value elem) :
  trace (nn_Embedding n d p) = [New_Embedding n d p].
Proof.
  unfold nn_Embedding. destruct n, d; try done.
  destruct p; simpl; try done; by case_ifs.
Qed.

Lemma trace_SharedBiRNN_forward (self X : value elem) :
  Forall (λ ev, match ev with
                | Load_elmo_weights _ | Load_glove_embeddings _
                | Torch_cat _ _ => True
                | _ => False
                end) (trace (SharedBiRNN_forward self X)).
Proof.
  unfold SharedBiRNN_forward, utils_load_elmo_weights,
    utils_load_glove_embeddings, torch_cat.
  repeat first
    [ apply Forall_trace_bind; [|intros ? _]
    | apply Forall_nil_2
    | apply Forall_cons_2; [done|] ].
Qed.

Lemma call_as_specified (r : string) (m x : value elem) :
  Forall (layer_as_specified r) (trace (call m x)).
Proof.
  unfold call. apply Forall_trace_bind; [by repeat constructor|]. intros _ _.
  destruct m; try (unfold lift; simpl; by constructor).
  repeat case_match; try by constructor.
  eapply Forall_impl; [apply trace_SharedBiRNN_forward|].
  by intros [].
Qed.

Ltac as_specified :=
  repeat first
    [ rewrite trace_attr | rewrite trace_getattr
    | rewrite selected_rnn
    | rewrite trace_nn_RNN | rewrite trace_nn_Linear
    | rewrite trace_nn_Embedding
    | apply call_as_specified
    | apply Forall_nil_2
    | apply Forall_cons_2; [done|]
    | apply Forall_trace_bind; [|intros ? _] ].

Lemma CharRNN_as_specified (cemb : value elem) (num_layers : Z) (r : string) :
  Forall (layer_as_specified r) (trace (CharRNN cemb num_layers r)).
Proof.
  unfold CharRNN.
  apply Forall_trace_bind; [|intros ? _; by constructor].
  destruct (String.eqb r "gru") eqn:Hr; unfold nn_GRU, nn_LSTM;
    as_specified; (apply Forall_cons_2; [|done]);
    simpl; unfold selected_unit; by rewrite Hr.
Qed.

Ltac as_built :=
  unfold nn_ReLU, nn_Tanh, nn_GELU, nn_Activation, nn_CrossEntropyLoss,
    SharedBiRNN, CharBiRNN;
  repeat first
    [ rewrite attr_insert_eq, ret_bind
    | rewrite attr_insert_ne by done
    | apply CharRNN_as_specified
    | rewrite selected_rnn
    | rewrite trace_nn_RNN | rewrite trace_nn_Linear
    | rewrite trace_nn_Embedding
    | rewrite trace_attr
    | apply call_as_specified
    | apply Forall_nil_2
    | apply Forall_cons_2; [done|]
    | match goal with
      | |- context [if String.eqb ?s ?c then _ else _] =>
          destruct (String.eqb s c)
      end
    | apply Forall_trace_bind; [|intros ? _] ].

Lemma SharedRNN_as_specified
    (num_word_types shared_layer_size num_char_types word_dim char_dim
     hidden_dim : Z) (dropout : value elem) (num_layers : Z) (r : string) :
  Forall (layer_as_specified r)
    (trace (SharedRNN num_word_types shared_layer_size num_char_types
              word_dim char_dim hidden_dim dropout num_layers r)).
Proof. unfold SharedRNN. as_built. Qed.

Lemma NERSpecificRNN_as_specified
    (shared_layer_size num_tag_types hidden_dim : Z) (dropout : value elem)
    (num_layers : Z) (activation_type r : string) :
  Forall (layer_as_specified r)
    (trace (NERSpecificRNN shared_layer_size num_tag_types hidden_dim dropout
              num_layers activation_type r)).
Proof. unfold NERSpecificRNN. as_built. Qed.

Lemma RESpecificRNN_as_specified
    (shared_layer_size num_rel_types hidden_dim : Z) (dropout : value elem)
    (num_layers : Z) (activation_type r : string) :
  Forall (layer_as_specified r)
    (trace (RESpecificRNN shared_layer_size num_rel_types hidden_dim dropout
              num_layers activation_type r)).
Proof. unfold RESpecificRNN. as_built. Qed.

Lemma MTLArchitecture_as_specified
    (num_word_types shared_layer_size num_char_types word_dim char_dim
     hidden_dim : Z) (dropout : value elem)
    (num_layers num_tag_types num_rel_types : Z)
    (activation_type r : string) :
  Forall (layer_as_specified r)
    (trace (MTLArchitecture num_word_types shared_layer_size num_char_types
              word_dim char_dim hidden_dim dropout num_layers num_tag_types
              num_rel_types activation_type r)).
Proof.
  unfold MTLArchitecture.
  apply Forall_trace_bind; [apply SharedRNN_as_specified|intros ? _].
  apply Forall_trace_bind; [apply NERSpecificRNN_as_specified|intros ? _].
  apply Forall_trace_bind; [apply RESpecificRNN_as_specified|intros ? _].
  as_built.
Qed.

Lemma SharedBiRNN_with_as_specified
    (CharBiRNN : value elem → Z → string → M elem (value elem))
    (num_word_types num_char_types num_layers : Z) (r : string) :
  (∀ cemb, Forall (layer_as_specified r) (trace (CharBiRNN cemb 1 r))) →
  Forall (layer_as_specified r)
    (trace (SharedBiRNN_with CharBiRNN num_word_types num_char_types
              num_layers r)).
Proof.
  intros Hchar. unfold SharedBiRNN_with.
  rewrite attr_insert_eq, ret_bind.
  apply Forall_trace_bind; [as_built|intros ? _].
  rewrite attr_insert_ne, attr_insert_eq, ret_bind by done.
  apply Forall_trace_bind; [as_built|intros ? _].
  rewrite attr_insert_eq, ret_bind.
  apply Forall_trace_bind; [apply Hchar|intros ? _].
  as_built.
Qed.

Lemma SharedBiRNN_as_specified (num_word_types num_char_types num_layers : Z)
    (r : string) :
  Forall (layer_as_specified r)
    (trace (SharedBiRNN num_word_types num_char_types num_layers r)).
Proof. apply SharedBiRNN_with_as_specified. intros. constructor. Qed.

(** ** The constructors *)

(** C2.  The claim has the three constructors store the result of the
    call on [None] and go on to [nn.Linear].  The code does not get that
    far: for each of the three supported values of [activation_type], the
    constructors of RESpecificRNN, NERSpecificBiRNN and RESpecificBiRNN
    build the activation layer and apply it to [None], and that call
    raises TypeError.  The whole run is these two events and the
    exception: [nn.Linear] is not constructed and no instance is
    returned.  NERSpecificRNN, which assigns the layer itself, is not
    among them. *)
Theorem activation_on_None_ends_constructor (a : activation)
    (shared_layer_size num_rel_types num_tag_types hidden_dim : Z)
    (dropout : value elem) (num_layers : Z) (recurrent_unit : string) :
  let stopped : M elem (value elem) :=
    ([New_Activation a; Call (VActivation a) VNone], Raise TypeError) in
  RESpecificRNN shared_layer_size num_rel_types hidden_dim dropout num_layers
    (activation_name a) recurrent_unit = stopped
  ∧ NERSpecificBiRNN num_rel_types num_tag_types hidden_dim dropout
      num_layers (activation_name a) recurrent_unit = stopped
  ∧ RESpecificBiRNN num_rel_types hidden_dim dropout num_layers
      (activation_name a) recurrent_unit = stopped.
Proof. by destruct a. Qed.

(** C3.  For an [activation_type] other than "relu", "tanh" and "gelu",
    and sizes that the layers accept ([shared_layer_size], [hidden_dim]
    and [num_layers] positive, [num_tag_types] not negative),
    [NERSpecificRNN.__init__] returns without an exception: it builds the
    recurrent layer and the linear layer only, and the instance has no
    attribute [FFNNe1]. *)
Theorem NERSpecificRNN_unsupported_activation
    (shared_layer_size num_tag_types hidden_dim : Z) (dropout : value elem)
    (num_layers : Z) (activation_type recurrent_unit : string) :
  activation_type ≠ "relu" → activation_type ≠ "tanh" →
  activation_type ≠ "gelu" →
  0 < shared_layer_size → 0 ≤ num_tag_types → 0 < hidden_dim →
  0 < num_layers →
  ∃ attrs,
    NERSpecificRNN shared_layer_size num_tag_types hidden_dim dropout
      num_layers activation_type recurrent_unit =
    ([New_RNN (selected_unit recurrent_unit) (VInt shared_layer_size)
        (VInt hidden_dim) (VInt num_layers) true;
      New_Linear (VInt hidden_dim) (VInt num_tag_types)],
     Ok (VObj "NERSpecificRNN" attrs))
    ∧ attrs !! "FFNNe1" = None
    ∧ attrs !! "birnn" =
        Some (VRNN (selected_unit recurrent_unit) shared_layer_size
                hidden_dim num_layers true)
    ∧ attrs !! "FFNNe2" = Some (VLinear hidden_dim num_tag_types).
Proof.
  intros H1 H2 H3 Hs Ht Hh Hl. eexists. split.
  - unfold NERSpecificRNN.
    rewrite selected_rnn, nn_RNN_ok by lia. msimpl.
    destruct (String.eqb_spec activation_type "relu"); [done|].
    destruct (String.eqb_spec activation_type "tanh"); [done|].
    destruct (String.eqb_spec activation_type "gelu"); [done|].
    msimpl. rewrite nn_Linear_ok by lia. by msimpl.
  - by rewrite lookup_insert_ne, lookup_insert_ne, !lookup_insert_eq,
      lookup_empty.
Qed.

(** C4.  The claim asks for an instance made of a shared encoder and two
    heads.  With sizes that the layers accept and a supported activation,
    the code builds [shared_layers] and [ner_layers] as the claim says,
    and then stops with TypeError in the constructor of the RE head, so
    that no instance of MTLArchitecture is returned. *)
Theorem MTLArchitecture_stops_at_RE_head (a : activation)
    (num_word_types shared_layer_size num_char_types word_dim char_dim
     hidden_dim : Z) (dropout : value elem)
    (num_layers num_tag_types num_rel_types : Z) (recurrent_unit : string) :
  0 < num_word_types → 0 < num_char_types → 0 ≤ word_dim → 0 < char_dim →
  0 < hidden_dim → 0 < num_layers → 0 < shared_layer_size →
  0 ≤ num_tag_types →
  ∃ shared ner,
    outcome (SharedRNN num_word_types shared_layer_size num_char_types
               word_dim char_dim hidden_dim dropout num_layers
               recurrent_unit) = Ok (VObj "SharedRNN" shared)
    ∧ outcome (NERSpecificRNN shared_layer_size num_tag_types hidden_dim
                 dropout num_layers (activation_name a) recurrent_unit)
      = Ok (VObj "NERSpecificRNN" ner)
    ∧ ner !! "FFNNe2" = Some (VLinear hidden_dim num_tag_types)
    ∧ outcome (RESpecificRNN shared_layer_size num_rel_types hidden_dim
                 dropout num_layers (activation_name a) recurrent_unit)
      = Raise TypeError
    ∧ outcome (MTLArchitecture num_word_types shared_layer_size
                 num_char_types word_dim char_dim hidden_dim dropout
                 num_layers num_tag_types num_rel_types (activation_name a)
                 recurrent_unit) = Raise TypeError.
Proof.
  intros. do 2 eexists. unfold MTLArchitecture.
  rewrite SharedRNN_ok, NERSpecificRNN_supported_ok, RESpecificRNN_supported
    by lia.
  msimpl. by rewrite lookup_insert_eq.
Qed.

(** The sizes that provide for a concatenation.  In SharedRNN the input
    size of the word-level recurrent layer is [word_dim + 2 * char_dim].
    In SharedBiRNN the word dimension is 1024 + 300 + 2 * 32 = 1388, the
    embedding size of the word table that the constructor builds first.
    [SharedBiRNN.forward] passes the ELMo and the GloVe embeddings of its
    input, in this order, to [torch.cat] with [dim=2]. *)
Theorem embeddings_are_concatenated
    (num_word_types shared_layer_size num_char_types word_dim char_dim
     hidden_dim : Z) (dropout : value elem) (num_layers : Z)
    (recurrent_unit : string) (self X : value elem)
    (elmo glove : tensor elem) :
  (0 < num_word_types → 0 < num_char_types → 0 ≤ word_dim → 0 < char_dim →
   0 < hidden_dim → 0 < num_layers →
   ∃ attrs,
     outcome (SharedRNN num_word_types shared_layer_size num_char_types
                word_dim char_dim hidden_dim dropout num_layers
                recurrent_unit) = Ok (VObj "SharedRNN" attrs)
     ∧ attrs !! "wordRNN" =
         Some (VRNN (selected_unit recurrent_unit)
                 (word_dim + 2 * char_dim) hidden_dim num_layers true))
  ∧ (ELMODim = 1024 ∧ GloveDim = 300 ∧ CharDim = 32
     ∧ ELMODim + GloveDim + 2 * CharDim = 1388)
  ∧ (∃ rest,
       trace (SharedBiRNN num_word_types num_char_types num_layers
                recurrent_unit)
       = New_Embedding (VInt num_word_types) (VInt 1388) (VInt 0) :: rest)
  ∧ (load_elmo_weights X = Ok elmo → load_glove_embeddings X = Ok glove →
     trace (SharedBiRNN_forward self X) =
     [Load_elmo_weights X; Load_glove_embeddings X;
      Torch_cat [VTensor elmo; VTensor glove] 2]).
Proof.
  split; [|split; [done|split]].
  - intros. eexists. rewrite SharedRNN_ok by lia. split; [done|].
    by rewrite lookup_insert_eq.
  - unfold SharedBiRNN, SharedBiRNN_with.
    rewrite attr_insert_eq, ret_bind, trace_bind, trace_nn_Embedding.
    by eexists.
  - intros He Hg.
    unfold SharedBiRNN_forward, utils_load_elmo_weights,
      utils_load_glove_embeddings, torch_cat.
    rewrite He, Hg. cbn -[t_cat]. by destruct (t_cat [elmo; glove] 2).
Qed.

(** C6.  The claim has word, character and contextual embeddings combined
    by concatenation before the shared encoder.  [SharedBiRNN.forward],
    the one method of model.py that concatenates embeddings, does not do
    that: for loaders that give an ELMo tensor of sizes [B; T; E] and a
    GloVe tensor of sizes [B; T; G], it computes [torch.cat] of these two
    along dimension 2, the tensor of sizes [B; T; E + G] that holds at
    each word the ELMo vector followed by the GloVe vector, and returns
    [None].  The whole run is the two loads and [torch.cat]: no embedding
    table is looked up, no character vector is computed, and no recurrent
    layer is applied to the concatenation. *)
Theorem concatenation_is_discarded (self X : value elem)
    (B T E G : nat) (elmo glove : list elem) :
  let elmo_embeddings := Tensor [B; T; E] elmo in
  let glove_embeddings := Tensor [B; T; G] glove in
  let word_embeddings :=
    Tensor [B; T; (E + G)%nat]
      (flat_map (λ w, slice (w * E) E elmo ++ slice (w * G) G glove)
         (seq 0 (B * T))) in
  load_elmo_weights X = Ok elmo_embeddings →
  load_glove_embeddings X = Ok glove_embeddings →
  t_cat [elmo_embeddings; glove_embeddings] 2 = Ok word_embeddings
  ∧ SharedBiRNN_forward self X =
    ([Load_elmo_weights X; Load_glove_embeddings X;
      Torch_cat [VTensor elmo_embeddings; VTensor glove_embeddings] 2],
     Ok VNone)
  ∧ outcome (SharedBiRNN_forward self X) ≠ Ok (VTensor word_embeddings).
Proof.
  intros e g word_embeddings He Hg.
  assert (t_cat [e; g] 2 = Ok word_embeddings) as Hcat
    by apply t_cat_last_dim.
  assert (SharedBiRNN_forward self X =
          ([Load_elmo_weights X; Load_glove_embeddings X;
            Torch_cat [VTensor e; VTensor g] 2], Ok VNone)) as Hrun.
  { unfold SharedBiRNN_forward, utils_load_elmo_weights,
      utils_load_glove_embeddings, torch_cat.
    rewrite He, Hg. cbn -[t_cat]. by rewrite Hcat. }
  split; [done|]. split; [done|]. by rewrite Hrun.
Qed.

(** C7.  Every recurrent layer that a constructor of model.py builds is
    bidirectional, and it is a GRU when [recurrent_unit] is "gru" and an
    LSTM otherwise.  As model.py stands, SharedBiRNN stops at the unbound
    name [CharBiRNN], before it builds its recurrent layer; the property
    also holds of its body under any binding of that name to a class that
    has the property. *)
Theorem recurrent_layers_bidirectional
    (num_word_types shared_layer_size num_char_types word_dim char_dim
     hidden_dim : Z) (dropout cemb : value elem)
    (num_layers num_tag_types : Z)
    (activation_type recurrent_unit : string)
    (CharBiRNN : value elem → Z → string → M elem (value elem)) :
  let as_selected (ev : event elem) :=
    match ev with
    | New_RNN u _ _ _ bidirectional =>
        bidirectional = true
        ∧ (recurrent_unit = "gru" → u = GRU)
        ∧ (recurrent_unit ≠ "gru" → u = LSTM)
    | _ => True
    end in
  Forall as_selected
    (trace (SharedRNN num_word_types shared_layer_size num_char_types
              word_dim char_dim hidden_dim dropout num_layers recurrent_unit))
  ∧ Forall as_selected
      (trace (NERSpecificRNN shared_layer_size num_tag_types hidden_dim
                dropout num_layers activation_type recurrent_unit))
  ∧ Forall as_selected (trace (CharRNN cemb num_layers recurrent_unit))
  ∧ Forall as_selected
      (trace (SharedBiRNN num_word_types num_char_types num_layers
                recurrent_unit))
  ∧ ((∀ c, Forall as_selected (trace (CharBiRNN c 1 recurrent_unit))) →
     Forall as_selected
       (trace (SharedBiRNN_with CharBiRNN num_word_types num_char_types
                 num_layers recurrent_unit))).
Proof.
  intros as_selected.
  assert (∀ ev, layer_as_specified recurrent_unit ev → as_selected ev) as Hev.
  { intros [] ; simpl; try done. intros [-> ->]. unfold selected_unit.
    by destruct (String.eqb_spec recurrent_unit "gru"). }
  split; [|split; [|split; [|split]]].
  1-4: eapply Forall_impl; try apply Hev.
  - apply SharedRNN_as_specified.
  - apply NERSpecificRNN_as_specified.
  - apply CharRNN_as_specified.
  - apply SharedBiRNN_as_specified.
  - intros Hchar. unfold SharedBiRNN_with.
    rewrite attr_insert_eq, ret_bind.
    apply Forall_trace_bind;
      [rewrite trace_nn_Embedding; by repeat constructor|intros ? _].
    rewrite attr_insert_ne, attr_insert_eq, ret_bind by done.
    apply Forall_trace_bind;
      [rewrite trace_nn_Embedding; by repeat constructor|intros ? _].
    rewrite attr_insert_eq, ret_bind.
    apply Forall_trace_bind; [apply Hchar|intros ? _].
    apply Forall_trace_bind; [|intros ? _; constructor].
    rewrite selected_rnn, trace_nn_RNN.
    apply Forall_cons_2; [|constructor]. by apply Hev.
Qed.

(** C9.  [SharedBiRNN.forward] loads the two embeddings and concatenates
    them, and its result is [None]: it returns [None] unless a loader or
    [torch.cat] raises, it does return when they succeed, and it applies
    no layer, so none of [charRNN], [wemb] and [word_birnn]. *)
Theorem SharedBiRNN_forward_returns_None (self X : value elem) :
  (outcome (SharedBiRNN_forward self X) = Ok VNone
   ∨ raises (SharedBiRNN_forward self X))
  ∧ Forall (λ ev, ∀ m x, ev ≠ Call m x) (trace (SharedBiRNN_forward self X))
  ∧ (∀ elmo glove r,
       load_elmo_weights X = Ok elmo → load_glove_embeddings X = Ok glove →
       t_cat [elmo; glove] 2 = Ok r →
       SharedBiRNN_forward self X =
       ([Load_elmo_weights X; Load_glove_embeddings X;
         Torch_cat [VTensor elmo; VTensor glove] 2], Ok VNone)).
Proof.
  split; [|split].
  - unfold raises, SharedBiRNN_forward.
    rewrite outcome_bind. destruct (outcome _) as [elmo|]; [|eauto].
    rewrite outcome_bind. destruct (outcome _) as [glove|]; [|eauto].
    rewrite outcome_bind. destruct (outcome _); [|eauto].
    by left.
  - eapply Forall_impl; [apply trace_SharedBiRNN_forward|].
    by intros [].
  - intros elmo glove r He Hg Hr.
    unfold SharedBiRNN_forward, utils_load_elmo_weights,
      utils_load_glove_embeddings, torch_cat.
    rewrite He, Hg. cbn -[t_cat]. by rewrite Hr.
Qed.

(** ** Embedding tables *)

Lemma padded_weight_lookup (n d i : Z) :
  0 ≤ i < n →
  default [] (padded_weight n d !! Z.to_nat i) =
  if i =? 0 then replicate (Z.to_nat d) zero
  else tab (Z.to_nat d) (normal_ (Z.to_nat i)).
Proof.
  intros Hi. unfold padded_weight.
  destruct (Z.eqb_spec i 0) as [->|Hne].
  - rewrite list_lookup_insert_eq; [done|].
    unfold tab. rewrite length_fmap, length_seq. lia.
  - rewrite list_lookup_insert_ne by lia.
    unfold tab at 1. rewrite list_lookup_fmap, lookup_seq_lt by lia. done.
Qed.

Lemma nn_Embedding_pad_0_inv (n d : Z) (table : value elem) :
  outcome (nn_Embedding (VInt n) (VInt d) (VInt 0)) = Ok table →
  0 < n ∧ 0 ≤ d ∧ table = VEmbedding n d (Some 0) (padded_weight n d).
Proof.
  unfold nn_Embedding. simpl.
  destruct (Z.ltb_spec n 0), (Z.ltb_spec d 0); simpl; try done.
  destruct (Z.ltb_spec 0 n); simpl; [|done].
  intros [= <-]. repeat split; [done|lia].
Qed.

(** C10.  The embedding tables that SharedRNN and SharedBiRNN build all
    get [padding_idx=0], read from the attribute [PAD_ind] (SharedRNN) or
    [Pad_ind] (SharedBiRNN); and a table built with [padding_idx=0] maps
    index 0 to the zero vector in every lookup. *)
Theorem embedding_tables_pad_index_0
    (num_word_types shared_layer_size num_char_types word_dim char_dim
     hidden_dim : Z) (dropout : value elem) (num_layers : Z)
    (recurrent_unit : string) (n d : Z) (table : value elem)
    (indices : tensor Z) :
  let pads_0 (ev : event elem) :=
    match ev with New_Embedding _ _ p => p = VInt 0 | _ => True end in
  Forall pads_0
    (trace (SharedRNN num_word_types shared_layer_size num_char_types
              word_dim char_dim hidden_dim dropout num_layers recurrent_unit))
  ∧ Forall pads_0
      (trace (SharedBiRNN num_word_types num_char_types num_layers
                recurrent_unit))
  ∧ (0 < num_word_types → 0 < num_char_types → 0 ≤ word_dim → 0 < char_dim →
     0 < hidden_dim → 0 < num_layers →
     ∃ attrs wemb cemb,
       outcome (SharedRNN num_word_types shared_layer_size num_char_types
                  word_dim char_dim hidden_dim dropout num_layers
                  recurrent_unit) = Ok (VObj "SharedRNN" attrs)
       ∧ attrs !! "PAD_ind" = Some (VInt 0)
       ∧ attrs !! "wemb" = Some wemb
       ∧ attrs !! "cemb" = Some cemb
       ∧ outcome (nn_Embedding (VInt num_word_types) (VInt word_dim) (VInt 0))
         = Ok wemb
       ∧ outcome (nn_Embedding (VInt num_char_types) (VInt char_dim) (VInt 0))
         = Ok cemb)
  ∧ (outcome (nn_Embedding (VInt n) (VInt d) (VInt 0)) = Ok table →
     forallb (λ i, (0 <=? i) && (i <? n)) (data indices) = true →
     nn_forward table (VLong indices) =
     Ok (VTensor
           (Tensor (shape indices ++ [Z.to_nat d])
              (flat_map (λ i, if i =? 0 then replicate (Z.to_nat d) zero
                              else tab (Z.to_nat d) (normal_ (Z.to_nat i)))
                 (data indices))))).
Proof.
  intros pads_0.
  assert (∀ ev, layer_as_specified recurrent_unit ev → pads_0 ev) as Hev
    by (by intros []).
  split; [|split; [|split]].
  - eapply Forall_impl; [apply SharedRNN_as_specified|apply Hev].
  - eapply Forall_impl; [apply SharedBiRNN_as_specified|apply Hev].
  - intros. do 3 eexists. rewrite SharedRNN_ok, !nn_Embedding_ok by lia.
    split; [done|].
    by rewrite !lookup_insert_ne, !lookup_insert_eq by done.
  - intros (Hn & Hd & ->)%nn_Embedding_pad_0_inv Hvalid. simpl.
    unfold Embedding_forward. rewrite Hvalid. do 3 f_equal.
    rewrite forallb_forall in Hvalid.
    induction (data indices) as [|i l IH]; [done|]. simpl.
    rewrite IH by (intros; apply Hvalid; by right). f_equal.
    apply padded_weight_lookup.
    specialize (Hvalid i (or_introl eq_refl)).
    apply andb_true_iff in Hvalid. lia.
Qed.

(** ** CharRNN.forward *)

Lemma view_shape_nonneg (n : nat) (dims : list Z) :
  Forall (λ d, 0 ≤ d) dims →
  view_shape n dims =
  if (numel (Z.to_nat <$> dims) =? n)%nat then Some (Z.to_nat <$> dims)
  else None.
Proof.
  intros Hd. unfold view_shape.
  assert (existsb (λ d, d <? -1) dims = false) as ->.
  { induction Hd as [|d l Hd _ IH]; [done|]. simpl. rewrite IH.
    destruct (Z.ltb_spec d (-1)); [lia|done]. }
  assert (filter (λ d, d ≠ -1) dims = dims) as ->.
  { induction Hd as [|d l Hd _ IH]; [done|].
    rewrite filter_cons_True by lia. by rewrite IH. }
  by rewrite Nat.sub_diag.
Qed.

Lemma len_lengths (char_lengths : value elem) (ls : list Z) :
  lengths_of char_lengths = Some ls →
  len char_lengths = mret (VInt (Z.of_nat (length ls))).
Proof.
  destruct char_lengths as [| | |l|l| |[sh d]| | | | | | | |]; simpl; try done.
  - intros Hl. unfold ints in Hl. by rewrite (length_mapM _ _ _ Hl).
  - intros Hl. unfold ints in Hl. by rewrite (length_mapM _ _ _ Hl).
  - destruct sh as [|n [|? ?]]; try done.
    destruct (Nat.eqb_spec (length d) n) as [<-|]; [|done]. by intros [= ->].
Qed.

Lemma t_pack_inv {A} (t : tensor A) (ls : list Z) (bf es : bool)
    (p : packed A) :
  t_pack t ls bf es = Ok p →
  length (seqs p) = length ls ∧ (0 < length ls)%nat
  ∧ features p = drop 2 (shape t).
Proof.
  unfold t_pack. destruct (shape t) as [|d0 [|d1 feat]].
  - done.
  - by repeat case_match.
  - destruct (negb es && _); [done|].
    destruct (Nat.eqb_spec
      ((if es then if bf then d0 else d1 else length ls)
       * (if bf then d1 else d0) * numel feat) 0) as [|Hn]; [done|].
    destruct (Nat.eqb_spec (length ls)
      (if es then if bf then d0 else d1 else length ls)) as [Hl|]; [|done].
    simpl negb. cbv iota.
    destruct (negb (forallb _ ls)); [done|].
    destruct (es && _); [done|]. intros [= <-]. simpl.
    rewrite length_imap. repeat split.
    destruct es; [rewrite Hl|]; destruct bf; nia.
Qed.

Lemma pack_padded_sequence_inv (input lengths packed : value elem)
    (bf es : bool) :
  outcome (pack_padded_sequence input lengths bf es) = Ok packed →
  ∃ ls, lengths_of lengths = Some ls
    ∧ ((∃ p, packed = VPacked p ∧ length (seqs p) = length ls
             ∧ (0 < length ls)%nat)
       ∨ (∃ p, packed = VPackedLong p)).
Proof.
  unfold pack_padded_sequence. rewrite outcome_bind. simpl.
  destruct (lengths_of lengths) as [ls|]; [|done].
  intros Hp. exists ls. split; [done|].
  destruct input; try done.
  - destruct (t_pack t ls bf es) as [p|] eqn:Ht; [|done].
    injection Hp as <-. left. exists p.
    apply t_pack_inv in Ht as (? & ? & _). done.
  - destruct (t_pack t ls bf es) as [p|] eqn:Ht; [|done].
    injection Hp as <-. right. by exists p.
Qed.

Lemma CharRNN_inv (cemb self : value elem) (num_layers : Z)
    (recurrent_unit : string) :
  outcome (CharRNN cemb num_layers recurrent_unit) = Ok self →
  ∃ d, 0 < d ∧ 0 < num_layers
    ∧ getattr cemb "embedding_dim" = mret (VInt d)
    ∧ self = VObj "CharRNN"
               (<["birnn" := VRNN (selected_unit recurrent_unit) d d
                                num_layers true]>
                  (<["cemb" := cemb]> ∅)).
Proof.
  unfold CharRNN.
  assert (∀ u : rnn_unit,
    (input_size ← getattr cemb "embedding_dim";
     hidden_size ← getattr cemb "embedding_dim";
     nn_RNN u input_size hidden_size (VInt num_layers) true) =
    (getattr cemb "embedding_dim" ≫= λ v, nn_RNN u v v (VInt num_layers) true))
    as Hsame.
  { intros u. destruct (getattr cemb "embedding_dim") as [t [v|e]] eqn:Hg;
      [|done].
    assert (t = []) as -> by (by rewrite <- (trace_getattr cemb "embedding_dim"), Hg).
    change ([], Ok v) with (mret (M := M elem) v). by rewrite !ret_bind. }
  unfold nn_GRU, nn_LSTM. rewrite !Hsame.
  assert ((if String.eqb recurrent_unit "gru"
           then getattr cemb "embedding_dim" ≫= λ v, nn_RNN GRU v v (VInt num_layers) true
           else getattr cemb "embedding_dim" ≫= λ v, nn_RNN LSTM v v (VInt num_layers) true)
          = (getattr cemb "embedding_dim" ≫= λ v,
               nn_RNN (selected_unit recurrent_unit) v v (VInt num_layers) true))
    as -> by (unfold selected_unit; by destruct (String.eqb recurrent_unit "gru")).
  rewrite !outcome_bind.
  destruct (getattr cemb "embedding_dim") as [t [v|e]] eqn:Hg; [|done].
  assert (t = []) as -> by (by rewrite <- (trace_getattr cemb "embedding_dim"), Hg).
  simpl. destruct v as [|d| | | | | | | | | | | | |]; try done.
  unfold nn_RNN. rewrite outcome_bind. simpl.
  destruct (Z.leb_spec d 0); [done|].
  destruct (Z.leb_spec num_layers 0); [done|]. simpl.
  intros [= <-]. exists d. done.
Qed.

Lemma getattr_obj (cls : string) (attrs : gmap string (value elem))
    (name : string) :
  getattr (VObj cls attrs) name = attr attrs name.
Proof. reflexivity. Qed.

Lemma call_RNN_packed (u : rnn_unit) (i h l : Z) (p : packed elem) :
  let m := VRNN u i h l true in
  let st g := tensor3 (2 * Z.to_nat l) (length (seqs p)) (Z.to_nat h) g in
  features p = [Z.to_nat i] → steps p = length <$> seqs p →
  ∃ out,
    call m (VPacked p) =
    ([Call m (VPacked p)],
     Ok (VTuple
           [out;
            match u with
            | GRU => VTensor (st (rnn_h m (VPacked p)))
            | LSTM => VTuple [VTensor (st (rnn_h m (VPacked p)));
                              VTensor (st (rnn_c m (VPacked p)))]
            end])).
Proof.
  intros m st Hf Hs. eexists. unfold call, m. simpl. unfold RNN_forward.
  by rewrite !bool_decide_eq_true_2.
Qed.

Lemma call_RNN_packed_mismatch (u : rnn_unit) (i h l : Z) (p : packed elem) :
  features p ≠ [Z.to_nat i] ∨ steps p ≠ length <$> seqs p →
  call (VRNN u i h l true) (VPacked p) =
  ([Call (VRNN u i h l true) (VPacked p)], Raise RuntimeError).
Proof.
  intros Hne. unfold call. simpl. unfold RNN_forward.
  destruct (bool_decide (features p = _)) eqn:Hf; [|done].
  destruct (bool_decide (steps p = _)) eqn:Hs; [|done].
  apply bool_decide_eq_true in Hf, Hs. by destruct Hne.
Qed.

Lemma GRU_state_is_a_tensor (cemb : value elem) (i h l : Z) (b : bool) :
  ∃ birnn,
    getattr (VObj "CharRNN" (<["birnn" := VRNN GRU i h l b]>
                               (<["cemb" := cemb]> ∅))) "birnn"
    = mret birnn
    ∧ ∀ x r, outcome (call birnn x) = Ok r →
             ∃ out h_n, r = VTuple [out; VTensor h_n].
Proof.
  eexists. split; [by rewrite getattr_obj, attr_insert_eq|].
  intros x r. unfold call. rewrite outcome_bind. simpl.
  unfold RNN_forward.
  destruct x as [| | | | |[sh ?]| |p| | | | | | |]; try done.
  - destruct sh as [|T [|B [|f [|]]]]; try done;
      (destruct (_ =? _)%nat; [|done]); (destruct (_ =? _)%nat; [done|]);
      intros [= <-]; by do 2 eexists.
  - destruct (bool_decide _); [|done]. destruct (bool_decide _); [|done].
    intros [= <-]. by do 2 eexists.
Qed.

(** C8.  A CharRNN built with [recurrent_unit="gru"] has a [forward] that
    raises on every input, and the second result of its recurrent layer
    is one tensor where [forward] destructures the pair of an LSTM.  That
    tensor has sizes [2 * num_layers; B; d]: the assignment
    [(final_h, _) = ...] splits it along its first dimension when
    [num_layers] is 1, and the [view] that follows then asks for twice the
    entries [final_h] has; for more layers the assignment itself raises
    ValueError. *)
Theorem CharRNN_forward_gru_raises
    (cemb self padded_chars char_lengths : value elem) (num_layers : Z) :
  outcome (CharRNN cemb num_layers "gru") = Ok self →
  raises (CharRNN_forward self padded_chars char_lengths)
  ∧ ∃ birnn,
      getattr self "birnn" = mret birnn
      ∧ ∀ x r, outcome (call birnn x) = Ok r →
               ∃ out h_n, r = VTuple [out; VTensor h_n].
Proof.
  intros (d & Hd & Hl & _ & ->)%CharRNN_inv.
  change (selected_unit "gru") with GRU.
  split; [|by apply GRU_state_is_a_tensor].
  unfold CharRNN_forward.
  apply raises_bind_r; intros B HB.
  rewrite !getattr_obj, (attr_insert_ne _ "birnn" "cemb") by done.
  rewrite !attr_insert_eq, !ret_bind.
  apply raises_bind_r; intros embedded _.
  apply raises_bind_r; intros packed Hp.
  apply pack_padded_sequence_inv in Hp as (ls & Hls & Hp).
  rewrite (len_lengths _ _ Hls) in HB. injection HB as <-.
  rewrite ret_bind.
  destruct Hp as [(p & -> & Hlen & Hpos)|(p & ->)];
    [|apply raises_bind_l; by exists RuntimeError].
  destruct (decide (features p = [Z.to_nat d])) as [Hf|Hf];
    [|apply raises_bind_l; exists RuntimeError;
      rewrite call_RNN_packed_mismatch; [done|by left]].
  destruct (decide (steps p = length <$> seqs p)) as [Hs|Hs];
    [|apply raises_bind_l; exists RuntimeError;
      rewrite call_RNN_packed_mismatch; [done|by right]].
  destruct (call_RNN_packed GRU d d num_layers p Hf Hs) as [out ->].
  apply raises_ok_bind. cbn [unpack2]. rewrite ret_bind. cbn [unpack2].
  unfold t_unpack2, tensor3. cbn [shape data].
  destruct (Nat.eqb_spec (2 * Z.to_nat num_layers) 2) as [HL|];
    [|apply raises_bind_l, raises_bind_l; by exists ValueError].
  unfold lift at 1. rewrite ok_bind. cbn [trace outcome fst snd mret M_ret ret].
  apply raises_ok_bind.
  repeat (rewrite ?ret_bind; cbn [getattr String.eqb Ascii.eqb Bool.eqb]).
  apply raises_bind_l. exists RuntimeError.
  unfold Tensor_view, ints, t_view.
  cbn [mapM mbind mret option_bind option_ret shape].
  rewrite view_shape_nonneg by (repeat constructor; lia).
  cbn [fmap list_fmap numel foldr].
  rewrite Hlen, Nat2Z.id.
  destruct (Nat.eqb_spec
    (Z.to_nat num_layers * (Z.to_nat 2 * (length ls * (Z.to_nat d * 1))))
    (length ls * (Z.to_nat d * 1))) as [Heq|]; [|done].
  exfalso. nia.
Qed.

Lemma ints_VInt (ls : list Z) : ints (VInt (elem := elem) <$> ls) = Some ls.
Proof.
  unfold ints. apply mapM_Some_2.
  induction ls as [|l ls IH]; simpl; by constructor.
Qed.

Lemma index_pos_last (n : nat) : (0 < n)%nat → index_pos n (-1) = Some (n - 1)%nat.
Proof.
  intros Hn. unfold index_pos. simpl.
  destruct (Z.leb_spec 0 (-1 + Z.of_nat n)); [|lia].
  destruct (Z.ltb_spec (-1 + Z.of_nat n) (Z.of_nat n)); [|lia].
  simpl. f_equal. lia.
Qed.

Lemma view_shape_infer (b m : nat) :
  (0 < b)%nat → view_shape (b * m) [Z.of_nat b; -1] = Some [b; m].
Proof.
  intros Hb. unfold view_shape. simpl.
  destruct (Z.ltb_spec (Z.of_nat b) (-1)); [lia|]. simpl.
  rewrite filter_cons_True, filter_cons_False, filter_nil by lia.
  simpl. rewrite Nat2Z.id, Nat.mul_1_r.
  destruct (Nat.eqb_spec b 0); [lia|].
  rewrite (Nat.mul_comm b m), Nat.Div0.mod_mul. simpl.
  destruct (Z.eqb_spec (Z.of_nat b) (-1)); [lia|].
  by rewrite Nat.div_mul by lia.
Qed.

Lemma Tensor_view_nonneg (t : tensor elem) (dims : list Z) :
  Forall (λ d, 0 ≤ d) dims →
  numel (Z.to_nat <$> dims) = numel (shape t) →
  Tensor_view (VTensor t) (VInt <$> dims) =
  mret (VTensor (Tensor (Z.to_nat <$> dims) (data t))).
Proof.
  intros Hd Hn. unfold Tensor_view, t_view.
  rewrite ints_VInt, view_shape_nonneg, Hn, Nat.eqb_refl by done.
  reflexivity.
Qed.

Lemma Tensor_view_infer (t : tensor elem) (b m : nat) :
  (0 < b)%nat → numel (shape t) = (b * m)%nat →
  Tensor_view (VTensor t) [VInt (Z.of_nat b); VInt (-1)] =
  mret (VTensor (Tensor [b; m] (data t))).
Proof.
  intros Hb Hn. unfold Tensor_view, t_view.
  change [VInt (Z.of_nat b); VInt (-1)]
    with (VInt (elem := elem) <$> [Z.of_nat b; -1]).
  rewrite ints_VInt, Hn, view_shape_infer by done. reflexivity.
Qed.

Lemma getitem_last (n : nat) (rest : list nat) (entries : list elem) :
  (0 < n)%nat →
  getitem (VTensor (Tensor (n :: rest) entries)) (-1) =
  mret (VTensor (Tensor rest
          (slice ((n - 1) * numel rest) (numel rest) entries))).
Proof.
  intros Hn. unfold getitem, t_index. cbn [shape data].
  by rewrite index_pos_last.
Qed.

(** With an LSTM, [CharRNN.forward] does what its comments say: it looks up
    the embeddings of the characters, packs them with the given lengths,
    batch first and without asking for sorted lengths, runs the recurrent
    layer, and returns one row per sequence: the final hidden state of the
    last layer in the forward direction followed by the one in the backward
    direction, [B] rows of [2 * embedding_dim] entries. *)
Lemma lengths_within (T : nat) (lens : list Z) :
  forallb (λ l, (0 <? l) && (l <=? Z.of_nat T)) lens = true →
  forallb (λ l, 0 <? l) lens = true
  ∧ ∀ b l, lens !! b = Some l → Nat.min (Z.to_nat l) T = Z.to_nat l.
Proof.
  induction lens as [|l lens IH]; simpl; [done|].
  intros [[H1 H2]%andb_true_iff Hr]%andb_true_iff.
  destruct (IH Hr) as [-> Hmin]. rewrite H1. split; [done|].
  intros [|b] l'; simpl; [|by apply Hmin].
  intros [= <-]. apply Z.ltb_lt in H1. apply Z.leb_le in H2. lia.
Qed.

(** Packing a batch of [B] rows with [B] lengths between 1 and the padded
    length. *)
Lemma pack_padded_batch (B T H : nat) (entries : list elem)
    (char_lengths : value elem) (lens : list Z) :
  let embedded := VTensor (Tensor [B; T; H] entries) in
  lengths_of char_lengths = Some lens →
  (0 < B)%nat → (0 < T)%nat → (0 < H)%nat → length lens = B →
  forallb (λ l, (0 <? l) && (l <=? Z.of_nat T)) lens = true →
  ∃ pk,
    pack_padded_sequence embedded char_lengths true false =
    ([Pack_padded_sequence embedded char_lengths true false], Ok (VPacked pk))
    ∧ features pk = [H] ∧ length (seqs pk) = B
    ∧ steps pk = length <$> seqs pk
    ∧ steps pk = Z.to_nat <$> lens
    ∧ seqs pk =
        imap (λ b l, (λ s, slice ((b * T + s) * numel [H]) (numel [H]) entries)
                     <$> seq 0 (Z.to_nat l)) lens.
Proof.
  intros embedded Hls HB HT HH Hlen Hlens.
  apply lengths_within in Hlens as [Hpos Hmin].
  assert (imap (λ b l, (λ s, slice ((b * T + s) * numel [H]) (numel [H])
                               entries)
                       <$> seq 0 (Nat.min (Z.to_nat l) T)) lens =
          imap (λ b l, (λ s, slice ((b * T + s) * numel [H]) (numel [H])
                               entries)
                       <$> seq 0 (Z.to_nat l)) lens) as Hseqs.
  { apply imap_ext. intros b l Hbl. cbn beta. by rewrite (Hmin b l). }
  eexists. unfold pack_padded_sequence. rewrite Hls.
  unfold embedded, t_pack. cbn [shape data negb andb].
  rewrite Hlen, Nat.ltb_irrefl.
  destruct (Nat.eqb_spec (B * T * numel [H]) 0) as [H0|_];
    [simpl in H0; nia|].
  rewrite Nat.eqb_refl, Hpos. cbn [negb andb]. rewrite Hseqs.
  split; [reflexivity|]. cbn [features seqs steps].
  split; [done|]. split; [by rewrite length_imap|].
  split; [|done].
  rewrite fmap_imap, <- (imap_const Z.to_nat lens).
  apply imap_ext. intros b l _. cbn. by rewrite length_fmap, length_seq.
Qed.

Lemma CharRNN_forward_lstm
    (n d num_layers : Z) (pad : option Z) (w : list (list elem))
    (recurrent_unit : string) (self : value elem)
    (B T : nat) (chars lens : list Z) :
  let cemb := VEmbedding n d pad w in
  let birnn := VRNN LSTM d d num_layers true in
  let padded_chars := VLong (Tensor [B; T] chars) in
  let char_lengths := VList (VInt <$> lens) in
  let last := (2 * (Z.to_nat num_layers - 1))%nat in
  recurrent_unit ≠ "gru" →
  outcome (CharRNN cemb num_layers recurrent_unit) = Ok self →
  (0 < B)%nat → (0 < T)%nat →
  forallb (λ i, (0 <=? i) && (i <? n)) chars = true →
  length lens = B →
  forallb (λ l, (0 <? l) && (l <=? Z.of_nat T)) lens = true →
  ∃ embedded packed,
    nn_forward cemb padded_chars = Ok embedded
    ∧ outcome (pack_padded_sequence embedded char_lengths true false)
      = Ok packed
    ∧ CharRNN_forward self padded_chars char_lengths =
      ([Call cemb padded_chars;
        Pack_padded_sequence embedded char_lengths true false;
        Call birnn packed],
       Ok (VTensor
             (Tensor [B; (2 * Z.to_nat d)%nat]
                (flat_map
                   (λ b, tab (Z.to_nat d) (rnn_h birnn packed last b)
                         ++ tab (Z.to_nat d) (rnn_h birnn packed (last + 1) b))
                   (seq 0 B))))).
Proof.
  intros cemb birnn padded_chars char_lengths last Hu Hself HB HT Hchars
    Hlen Hlens.
  apply CharRNN_inv in Hself as (d' & Hd & Hl & Hdim & ->).
  simpl in Hdim. injection Hdim as <-.
  assert (selected_unit recurrent_unit = LSTM) as ->.
  { unfold selected_unit. by destruct (String.eqb_spec recurrent_unit "gru"). }
  fold cemb birnn.
  assert (lengths_of char_lengths = Some lens) as Hls by apply ints_VInt.
  set (H := Z.to_nat d). set (L := Z.to_nat num_layers).
  assert (0 < H)%nat as HH by lia. assert (0 < L)%nat as HL by lia.
  set (embedded := VTensor (Tensor [B; T; H]
         (flat_map (λ i, default [] (w !! Z.to_nat i)) chars))).
  assert (call cemb padded_chars = ([Call cemb padded_chars], Ok embedded))
    as Hcall.
  { unfold call. simpl. unfold Embedding_forward. simpl. by rewrite Hchars. }
  destruct (pack_padded_batch B T H
              (flat_map (λ i, default [] (w !! Z.to_nat i)) chars)
              char_lengths lens Hls HB HT HH Hlen Hlens)
    as (pk & Hpack & Hfeat & Hpk & Hsteps & _).
  fold embedded in Hpack.
  destruct (call_RNN_packed LSTM d d num_layers pk Hfeat Hsteps) as [out Hrnn].
  fold birnn H L in Hrnn. rewrite Hpk in Hrnn.
  exists embedded, (VPacked pk). split; [|split].
  - simpl. unfold Embedding_forward. simpl. by rewrite Hchars.
  - by rewrite Hpack.
  - unfold CharRNN_forward.
    rewrite (len_lengths _ _ Hls), ret_bind, Hlen.
    rewrite !getattr_obj, (attr_insert_ne _ "birnn" "cemb") by done.
    rewrite !attr_insert_eq, !ret_bind.
    rewrite Hcall. msimpl. rewrite Hpack. msimpl. rewrite Hrnn. msimpl.
    cbn [unpack2]. msimpl. cbn [unpack2]. msimpl.
    change (getattr birnn "num_layers")
      with (mret (M := M elem) (VInt (elem := elem) num_layers)).
    msimpl.
    change (getattr birnn "hidden_size")
      with (mret (M := M elem) (VInt (elem := elem) d)).
    msimpl.
    change [VInt num_layers; VInt 2; VInt (Z.of_nat B); VInt d]
      with (VInt (elem := elem) <$> [num_layers; 2; Z.of_nat B; d]).
    rewrite Tensor_view_nonneg;
      [|repeat constructor; lia|simpl; fold H L; rewrite Nat2Z.id; lia].
    msimpl. cbn [fmap list_fmap data tensor3]. fold H L. rewrite Nat2Z.id.
    rewrite getitem_last by done. msimpl.
    change (Z.to_nat 2) with 2%nat.
    unfold Tensor_transpose_0_1, t_transpose01, lift. cbn [shape data]. msimpl.
    cbn [Tensor_contiguous]. msimpl.
    rewrite (Tensor_view_infer _ B (2 * (H * 1))) by done. msimpl.
    cbn [data]. rewrite Nat.mul_1_r. do 4 f_equal.
    apply flat_map_seq_ext. intros b Hb. cbn [seq flat_map].
    rewrite app_nil_r.
    set (K := numel [2%nat; B; H]).
    assert (K = (2 * B * H)%nat) as HK by (unfold K; simpl; lia).
    assert (∀ i, (i < 2)%nat →
      slice ((i * B + b) * numel [H]) (numel [H])
        (slice ((L - 1) * K) K
           (data (tensor3 (2 * L) B H (rnn_h birnn (VPacked pk))))) =
      tab H (rnn_h birnn (VPacked pk) (last + i) b)) as Hrow.
    { intros i Hi. cbn [numel foldr]. rewrite Nat.mul_1_r.
      rewrite slice_slice by nia.
      replace ((L - 1) * K + (i * B + b) * H)%nat
        with (((last + i) * B + b) * H)%nat by (unfold last; fold L; nia).
      apply slice_tensor3; unfold last; fold L; lia. }
    f_equal.
    + rewrite <- (Nat.add_0_r last). apply (Hrow 0%nat). lia.
    + apply (Hrow 1%nat). lia.
Qed.

(** * Further properties of the constructors *)

Lemma CharRNN_builds_RNN_only (cemb : value elem) (num_layers : Z)
    (r : string) :
  Forall (λ ev, ∃ u i h l, ev = New_RNN u i h l true)
    (trace (CharRNN cemb num_layers r)).
Proof.
  unfold CharRNN.
  apply Forall_trace_bind; [|intros ? _; by constructor].
  destruct (String.eqb r "gru"); unfold nn_GRU, nn_LSTM;
    (apply Forall_trace_bind; [rewrite trace_getattr; constructor|intros ? _]);
    (apply Forall_trace_bind; [rewrite trace_getattr; constructor|intros ? _]);
    rewrite trace_nn_RNN; (apply Forall_cons_2; [|done]); by do 4 eexists.
Qed.

Ltac no_call :=
  unfold nn_ReLU, nn_Tanh, nn_GELU, nn_Activation, nn_CrossEntropyLoss;
  repeat first
    [ rewrite attr_insert_eq, ret_bind
    | rewrite attr_insert_ne by done
    | eapply Forall_impl;
        [apply CharRNN_builds_RNN_only | by intros ? (? & ? & ? & ? & ->)]
    | rewrite selected_rnn
    | rewrite trace_nn_RNN | rewrite trace_nn_Linear
    | rewrite trace_nn_Embedding
    | rewrite trace_attr
    | apply Forall_nil_2
    | apply Forall_cons_2; [done|]
    | match goal with
      | |- context [if String.eqb ?s ?c then _ else _] =>
          destruct (String.eqb s c)
      end
    | apply Forall_trace_bind; [|intros ? _] ].

Lemma nn_RNN_inv (u : rnn_unit) (i h l : Z) (b : bool) (v : value elem) :
  outcome (nn_RNN u (VInt i) (VInt h) (VInt l) b) = Ok v →
  0 < i ∧ 0 < h ∧ 0 < l ∧ v = VRNN u i h l b.
Proof.
  unfold nn_RNN. rewrite outcome_bind. simpl.
  destruct (Z.leb_spec i 0); [done|]. destruct (Z.leb_spec h 0); [done|].
  destruct (Z.leb_spec l 0); [done|]. simpl. intros [= <-]. done.
Qed.

Lemma nn_Linear_inv (i o : Z) (v : value elem) :
  outcome (nn_Linear (VInt i) (VInt o)) = Ok v →
  0 ≤ i ∧ 0 ≤ o ∧ v = VLinear i o.
Proof.
  unfold nn_Linear. rewrite outcome_bind. simpl.
  destruct (Z.ltb_spec i 0); [done|]. destruct (Z.ltb_spec o 0); [done|].
  simpl. intros [= <-]. done.
Qed.

Lemma NERSpecificRNN_returns
    (shared_layer_size num_tag_types hidden_dim : Z) (dropout : value elem)
    (num_layers : Z) (activation_type recurrent_unit : string) :
  0 < shared_layer_size → 0 ≤ num_tag_types → 0 < hidden_dim →
  0 < num_layers →
  ∃ attrs,
    outcome (NERSpecificRNN shared_layer_size num_tag_types hidden_dim
               dropout num_layers activation_type recurrent_unit)
    = Ok (VObj "NERSpecificRNN" attrs)
    ∧ attrs !! "birnn" =
        Some (VRNN (selected_unit recurrent_unit) shared_layer_size
                hidden_dim num_layers true)
    ∧ attrs !! "FFNNe2" = Some (VLinear hidden_dim num_tag_types)
    ∧ (∀ a, activation_type = activation_name a →
            attrs !! "FFNNe1" = Some (VActivation a)).
Proof.
  intros Hs Ht Hh Hl.
  destruct (activation_name_cases activation_type)
    as [[a ->]|(H1 & H2 & H3)].
  - eexists. rewrite NERSpecificRNN_supported_ok by lia.
    split; [done|]. rewrite lookup_insert_eq.
    rewrite !lookup_insert_ne, !lookup_insert_eq by done.
    repeat split. intros a' Ha. destruct a, a'; done.
  - eexists. unfold NERSpecificRNN.
    rewrite selected_rnn, nn_RNN_ok by lia. msimpl.
    rewrite H1, H2, H3. msimpl. rewrite nn_Linear_ok by lia. msimpl.
    split; [done|]. rewrite lookup_insert_eq.
    rewrite lookup_insert_ne, lookup_insert_eq by done.
    repeat split. intros a ->. by destruct a.
Qed.

Lemma NERSpecificRNN_inv
    (shared_layer_size num_tag_types hidden_dim : Z) (dropout : value elem)
    (num_layers : Z) (activation_type recurrent_unit : string)
    (v : value elem) :
  outcome (NERSpecificRNN shared_layer_size num_tag_types hidden_dim
             dropout num_layers activation_type recurrent_unit) = Ok v →
  0 < shared_layer_size ∧ 0 ≤ num_tag_types ∧ 0 < hidden_dim
  ∧ 0 < num_layers.
Proof.
  intros Hv. unfold NERSpecificRNN in Hv.
  rewrite selected_rnn, outcome_bind in Hv.
  destruct (outcome (nn_RNN _ _ _ _ _)) as [birnn|] eqn:Hb; [|done].
  apply nn_RNN_inv in Hb as (? & ? & ? & ->).
  rewrite outcome_bind in Hv.
  destruct (outcome _) as [self|] eqn:Hself in Hv; [|done].
  rewrite outcome_bind in Hv.
  destruct (outcome (nn_Linear _ _)) as [lin|] eqn:Hlin; [|done].
  apply nn_Linear_inv in Hlin as (? & ? & ->). lia.
Qed.

Lemma SharedRNN_inv
    (num_word_types shared_layer_size num_char_types word_dim char_dim
     hidden_dim : Z) (dropout : value elem) (num_layers : Z)
    (recurrent_unit : string) (v : value elem) :
  outcome (SharedRNN num_word_types shared_layer_size num_char_types
             word_dim char_dim hidden_dim dropout num_layers
             recurrent_unit) = Ok v →
  0 < num_word_types ∧ 0 < num_char_types ∧ 0 ≤ word_dim ∧ 0 < char_dim
  ∧ 0 < hidden_dim ∧ 0 < num_layers.
Proof.
  intros Hv. unfold SharedRNN in Hv.
  rewrite attr_insert_eq, ret_bind, outcome_bind in Hv.
  destruct (outcome (nn_Embedding _ _ _)) as [wemb|] eqn:Hw; [|done].
  apply nn_Embedding_pad_0_inv in Hw as (? & ? & ->).
  rewrite attr_insert_ne, attr_insert_eq, ret_bind, outcome_bind in Hv
    by done.
  destruct (outcome (nn_Embedding _ _ _)) as [cemb|] eqn:Hc; [|done].
  apply nn_Embedding_pad_0_inv in Hc as (? & ? & ->).
  rewrite attr_insert_eq, ret_bind, outcome_bind in Hv.
  destruct (outcome (CharRNN _ _ _)) as [charRNN|] eqn:Hchar; [|done].
  apply CharRNN_inv in Hchar as (d & ? & _ & Hd & _).
  simpl in Hd. injection Hd as <-.
  rewrite selected_rnn, outcome_bind in Hv.
  destruct (outcome (nn_RNN _ _ _ _ _)) as [wordRNN|] eqn:Hr; [|done].
  apply nn_RNN_inv in Hr as (? & ? & ? & _). lia.
Qed.

(** X1.  [NERSpecificRNN.__init__] returns an instance exactly when the
    layers accept the sizes: [shared_layer_size], [hidden_dim] and
    [num_layers] positive, [num_tag_types] not negative.  Neither
    [activation_type], [recurrent_unit] nor [dropout] can make it raise,
    and no layer is ever applied. *)
Theorem NERSpecificRNN_returns_iff
    (shared_layer_size num_tag_types hidden_dim : Z) (dropout : value elem)
    (num_layers : Z) (activation_type recurrent_unit : string) :
  let run := NERSpecificRNN shared_layer_size num_tag_types hidden_dim
               dropout num_layers activation_type recurrent_unit in
  ((∃ v, outcome run = Ok v) ↔
   (0 < shared_layer_size ∧ 0 ≤ num_tag_types ∧ 0 < hidden_dim
    ∧ 0 < num_layers))
  ∧ Forall (λ ev, ∀ m x, ev ≠ Call m x) (trace run).
Proof.
  intros run. split; [split|].
  - intros [v Hv]. by apply NERSpecificRNN_inv in Hv.
  - intros (? & ? & ? & ?).
    destruct (NERSpecificRNN_returns shared_layer_size num_tag_types
                hidden_dim dropout num_layers activation_type recurrent_unit)
      as (attrs & Hrun & _); [lia..|]. by eexists.
  - unfold run, NERSpecificRNN. no_call.
Qed.

(** X2.  [SharedRNN.__init__] returns an instance exactly when both
    vocabularies are not empty, [char_dim], [hidden_dim] and [num_layers]
    are positive and [word_dim] is not negative. *)
Theorem SharedRNN_returns_iff
    (num_word_types shared_layer_size num_char_types word_dim char_dim
     hidden_dim : Z) (dropout : value elem) (num_layers : Z)
    (recurrent_unit : string) :
  (∃ v, outcome (SharedRNN num_word_types shared_layer_size num_char_types
                   word_dim char_dim hidden_dim dropout num_layers
                   recurrent_unit) = Ok v) ↔
  (0 < num_word_types ∧ 0 < num_char_types ∧ 0 ≤ word_dim ∧ 0 < char_dim
   ∧ 0 < hidden_dim ∧ 0 < num_layers).
Proof.
  split.
  - intros [v Hv]. by apply SharedRNN_inv in Hv.
  - intros (? & ? & ? & ? & ? & ?). eexists.
    by rewrite SharedRNN_ok by lia.
Qed.

(** X3.  [SharedRNN.__init__] builds two embedding tables and no more,
    the word table and the character table, and the attribute [cemb] of
    the character encoder [charRNN] is the [cemb] of the instance: the
    encoder is given the table built for [self.cemb], none is built for
    it.  Its recurrent layer has one layer, with input and hidden size
    [char_dim], whatever [num_layers] is.  [shared_layer_size] and
    [dropout] have no effect on what is built. *)
Theorem SharedRNN_character_encoder
    (num_word_types shared_layer_size num_char_types word_dim char_dim
     hidden_dim : Z) (dropout : value elem) (num_layers : Z)
    (recurrent_unit : string) :
  0 < num_word_types → 0 < num_char_types → 0 ≤ word_dim → 0 < char_dim →
  0 < hidden_dim → 0 < num_layers →
  (∃ attrs cemb char_attrs,
     outcome (SharedRNN num_word_types shared_layer_size num_char_types
                word_dim char_dim hidden_dim dropout num_layers
                recurrent_unit) = Ok (VObj "SharedRNN" attrs)
     ∧ attrs !! "cemb" = Some cemb
     ∧ attrs !! "charRNN" = Some (VObj "CharRNN" char_attrs)
     ∧ char_attrs !! "cemb" = Some cemb
     ∧ char_attrs !! "birnn" =
         Some (VRNN (selected_unit recurrent_unit) char_dim char_dim 1 true))
  ∧ trace (SharedRNN num_word_types shared_layer_size num_char_types
             word_dim char_dim hidden_dim dropout num_layers recurrent_unit)
    = [New_Embedding (VInt num_word_types) (VInt word_dim) (VInt 0);
       New_Embedding (VInt num_char_types) (VInt char_dim) (VInt 0);
       New_RNN (selected_unit recurrent_unit) (VInt char_dim) (VInt char_dim)
         (VInt 1) true;
       New_RNN (selected_unit recurrent_unit) (VInt (word_dim + 2 * char_dim))
         (VInt hidden_dim) (VInt num_layers) true]
  ∧ ∀ shared_layer_size' dropout',
      SharedRNN num_word_types shared_layer_size' num_char_types word_dim
        char_dim hidden_dim dropout' num_layers recurrent_unit =
      SharedRNN num_word_types shared_layer_size num_char_types word_dim
        char_dim hidden_dim dropout num_layers recurrent_unit.
Proof.
  intros. split; [|split; [|done]]; rewrite SharedRNN_ok by lia; [|done].
  eexists _, (VEmbedding num_char_types char_dim (Some 0)
                (padded_weight num_char_types char_dim)), _.
  by repeat split.
Qed.

(** X4.  [CharRNN.__init__] returns an instance exactly when [cemb] has an
    integer attribute [embedding_dim] that is positive and [num_layers] is
    positive.  When reading [embedding_dim] fails ([cemb] is [None], say),
    the constructor raises that exception before building any layer. *)
Theorem CharRNN_returns_iff (cemb : value elem) (num_layers : Z)
    (recurrent_unit : string) :
  ((∃ v, outcome (CharRNN cemb num_layers recurrent_unit) = Ok v) ↔
   (∃ d, getattr cemb "embedding_dim" = mret (VInt d)
         ∧ 0 < d ∧ 0 < num_layers))
  ∧ (∀ e, outcome (getattr cemb "embedding_dim") = Raise e →
          CharRNN cemb num_layers recurrent_unit = ([], Raise e)).
Proof.
  split; [split|].
  - intros [v (d & ? & ? & ? & _)%CharRNN_inv]. by exists d.
  - intros (d & Hd & ? & ?). eexists. unfold CharRNN. rewrite !Hd. msimpl.
    rewrite selected_rnn, nn_RNN_ok by lia. by msimpl.
  - intros e He. unfold CharRNN.
    destruct (getattr cemb "embedding_dim") as [t [v|e']] eqn:Hg; [done|].
    assert (t = []) as ->
      by (by rewrite <- (trace_getattr cemb "embedding_dim"), Hg).
    simpl in He. injection He as ->.
    by destruct (String.eqb recurrent_unit "gru").
Qed.

(** X5.  With an [activation_type] other than "relu", "tanh" and "gelu",
    the constructors of RESpecificRNN, NERSpecificBiRNN and RESpecificBiRNN
    raise AttributeError when they read the FFNN attribute that no branch
    has assigned, before any call into PyTorch. *)
Theorem unsupported_activation_is_AttributeError
    (shared_layer_size num_rel_types num_tag_types hidden_dim : Z)
    (dropout : value elem) (num_layers : Z)
    (activation_type recurrent_unit : string) :
  activation_type ≠ "relu" → activation_type ≠ "tanh" →
  activation_type ≠ "gelu" →
  let stopped : M elem (value elem) := ([], Raise AttributeError) in
  RESpecificRNN shared_layer_size num_rel_types hidden_dim dropout num_layers
    activation_type recurrent_unit = stopped
  ∧ NERSpecificBiRNN num_rel_types num_tag_types hidden_dim dropout
      num_layers activation_type recurrent_unit = stopped
  ∧ RESpecificBiRNN num_rel_types hidden_dim dropout num_layers
      activation_type recurrent_unit = stopped.
Proof.
  intros H1 H2 H3 stopped.
  unfold RESpecificRNN, NERSpecificBiRNN, RESpecificBiRNN.
  destruct (String.eqb_spec activation_type "relu"); [done|].
  destruct (String.eqb_spec activation_type "tanh"); [done|].
  destruct (String.eqb_spec activation_type "gelu"); [done|].
  done.
Qed.

(** X6.  [SharedBiRNN.__init__] never returns an instance.  When both
    vocabularies are not empty it builds the word table, of embedding size
    1388, and the character table, of embedding size 32, and then raises
    NameError at the name [CharBiRNN]: no recurrent layer is built, and
    [num_layers] and [recurrent_unit] are never looked at. *)
Theorem SharedBiRNN_raises
    (num_word_types num_char_types num_layers : Z) (recurrent_unit : string) :
  raises (SharedBiRNN num_word_types num_char_types num_layers recurrent_unit)
  ∧ (0 < num_word_types → 0 < num_char_types →
     SharedBiRNN num_word_types num_char_types num_layers recurrent_unit =
     ([New_Embedding (VInt num_word_types) (VInt 1388) (VInt 0);
       New_Embedding (VInt num_char_types) (VInt 32) (VInt 0)],
      Raise NameError)).
Proof.
  split.
  - unfold SharedBiRNN, SharedBiRNN_with.
    rewrite attr_insert_eq, ret_bind.
    apply raises_bind_r; intros wemb _.
    rewrite attr_insert_ne, attr_insert_eq, ret_bind by done.
    apply raises_bind_r; intros cemb _.
    rewrite attr_insert_eq, ret_bind.
    apply raises_bind_l. by exists NameError.
  - intros Hw Hc. unfold SharedBiRNN, SharedBiRNN_with.
    rewrite attr_insert_eq, ret_bind.
    change (ELMODim + GloveDim + 2 * CharDim) with 1388.
    change CharDim with 32.
    rewrite nn_Embedding_ok by lia. msimpl.
    rewrite attr_insert_ne, attr_insert_eq by done. msimpl.
    rewrite nn_Embedding_ok by lia. msimpl.
    rewrite attr_insert_eq. by msimpl.
Qed.

(** * Further properties of [CharRNN.forward] *)

Lemma in_range_Forall (n : Z) (chars : list Z) :
  forallb (λ i, (0 <=? i) && (i <? n)) chars = true ↔
  Forall (λ i, 0 ≤ i < n) chars.
Proof.
  induction chars as [|i chars IH]; simpl.
  - split; [constructor|done].
  - rewrite Forall_cons, !andb_true_iff, IH, Z.leb_le, Z.ltb_lt. tauto.
Qed.

Ltac forward_lookup Hls :=
  unfold CharRNN_forward;
  rewrite (len_lengths _ _ Hls), ret_bind;
  rewrite !getattr_obj, (attr_insert_ne _ "birnn" "cemb") by done;
  rewrite !attr_insert_eq, !ret_bind.



(** The [i]-th block of a list made of one row per index, the rows all of
    length [k]. *)
Lemma slice_rows {A} (row : Z → list A) (k : nat) (chars : list Z) (i : nat)
    (c : Z) :
  Forall (λ c, length (row c) = k) chars → chars !! i = Some c →
  slice (i * k) k (flat_map row chars) = row c.
Proof.
  intros Hrows. revert i. induction Hrows as [|c0 chars Hc0 _ IH]; intros i Hi;
    [done|].
  simpl. destruct i as [|i].
  - injection Hi as ->. unfold slice. change (0 * k)%nat with 0%nat.
    by rewrite drop_0, take_app_length'.
  - unfold slice. change (S i * k)%nat with (k + i * k)%nat.
    rewrite drop_app_add' by done. by apply IH.
Qed.

Lemma padded_weight_row (n d i : Z) :
  0 ≤ i < n → length (default [] (padded_weight n d !! Z.to_nat i)) = Z.to_nat d.
Proof.
  intros Hi. rewrite padded_weight_lookup by done.
  destruct (i =? 0); [apply length_replicate | apply length_tab].
Qed.

Lemma lengths_in_range (T : nat) (lens : list Z) :
  forallb (λ l, (0 <? l) && (l <=? Z.of_nat T)) lens = true ↔
  Forall (λ l, 0 < l ≤ Z.of_nat T) lens.
Proof.
  induction lens as [|l lens IH]; simpl.
  - split; [constructor|done].
  - rewrite Forall_cons, !andb_true_iff, IH, Z.ltb_lt, Z.leb_le. tauto.
Qed.

(** X9.  With an LSTM, what [CharRNN.forward] returns does not depend on
    the indices stored at the padded positions: two batches of the same
    sizes that agree on the first [char_lengths[b]] positions of every row
    [b] give the same tensor.  The table is one that
    [nn.Embedding(n, d, padding_idx=0)] builds. *)
Theorem CharRNN_forward_lstm_ignores_padding
    (n d num_layers : Z) (recurrent_unit : string) (cemb self : value elem)
    (B T : nat) (chars chars' lens : list Z) :
  let char_lengths := VList (VInt <$> lens) in
  recurrent_unit ≠ "gru" →
  outcome (nn_Embedding (VInt n) (VInt d) (VInt 0)) = Ok cemb →
  outcome (CharRNN cemb num_layers recurrent_unit) = Ok self →
  (0 < B)%nat → (0 < T)%nat →
  length chars = (B * T)%nat → length chars' = (B * T)%nat →
  Forall (λ i, 0 ≤ i < n) chars → Forall (λ i, 0 ≤ i < n) chars' →
  length lens = B → Forall (λ l, 0 < l ≤ Z.of_nat T) lens →
  (∀ b l s, lens !! b = Some l → (s < Z.to_nat l)%nat →
            chars !! (b * T + s)%nat = chars' !! (b * T + s)%nat) →
  ∃ cembs,
    outcome (CharRNN_forward self (VLong (Tensor [B; T] chars)) char_lengths)
    = Ok cembs
    ∧ outcome (CharRNN_forward self (VLong (Tensor [B; T] chars'))
                 char_lengths) = Ok cembs.
Proof.
  intros char_lengths Hu Hcemb Hself HB HT Hlen Hlen' Hchars Hchars' HlB Hlens
    Hagree. subst char_lengths.
  apply nn_Embedding_pad_0_inv in Hcemb as (Hn & Hd & ->).
  set (row := λ i : Z, default [] (padded_weight n d !! Z.to_nat i)).
  assert (∀ cs, Forall (λ i, 0 ≤ i < n) cs →
                Forall (λ c, length (row c) = Z.to_nat d) cs) as Hrows.
  { intros cs Hcs. induction Hcs; constructor; [|done].
    by apply padded_weight_row. }
  destruct (CharRNN_forward_lstm n d num_layers (Some 0) (padded_weight n d)
              recurrent_unit self B T chars lens)
    as (embedded & packed & He & Hp & ->);
    [done|done|done|done|by apply in_range_Forall|done
    |by apply lengths_in_range|].
  destruct (CharRNN_forward_lstm n d num_layers (Some 0) (padded_weight n d)
              recurrent_unit self B T chars' lens)
    as (embedded' & packed' & He' & Hp' & ->);
    [done|done|done|done|by apply in_range_Forall|done
    |by apply lengths_in_range|].
  eexists. split; [reflexivity|]. cbn [outcome snd].
  enough (packed' = packed) as -> by done.
  cbn [nn_forward] in He, He'. unfold Embedding_forward in He, He'.
  cbn [data shape] in He, He'.
  apply in_range_Forall in Hchars as Hb. rewrite Hb in He.
  apply in_range_Forall in Hchars' as Hb'. rewrite Hb' in He'.
  injection He as <-. injection He' as <-.
  apply CharRNN_inv in Hself as (d' & Hdpos & _ & Hdim & _).
  simpl in Hdim. injection Hdim as <-.
  destruct (pack_padded_batch B T (Z.to_nat d) (flat_map row chars)
              (VList (VInt <$> lens)) lens)
    as (pk & Hpk & Hf & _ & _ & Hst & Hsq);
    [apply ints_VInt|done|done|lia|done|by apply lengths_in_range|].
  destruct (pack_padded_batch B T (Z.to_nat d) (flat_map row chars')
              (VList (VInt <$> lens)) lens)
    as (pk' & Hpk' & Hf' & _ & _ & Hst' & Hsq');
    [apply ints_VInt|done|done|lia|done|by apply lengths_in_range|].
  fold row in Hp, Hp'. rewrite Hpk in Hp. rewrite Hpk' in Hp'.
  injection Hp as <-. injection Hp' as <-. f_equal.
  destruct pk as [f st sq], pk' as [f' st' sq']. cbn in Hf, Hf', Hst, Hst'.
  cbn [seqs] in Hsq, Hsq'. subst f f' st st' sq sq'. f_equal.
  apply imap_ext. intros b l Hbl. cbn beta.
  apply Forall_fmap_ext_1, Forall_forall. intros s Hs%elem_of_seq.
  rewrite Forall_lookup in Hlens. specialize (Hlens b l Hbl).
  apply lookup_lt_Some in Hbl as Hblt. rewrite HlB in Hblt.
  assert (b * T + s < B * T)%nat as Hpos by nia.
  destruct (lookup_lt_is_Some_2 chars (b * T + s)%nat) as [c Hc]; [lia|].
  cbn [numel foldr]. rewrite Nat.mul_1_r.
  rewrite (slice_rows row _ chars' _ c), (slice_rows row _ chars _ c);
    [done|by apply Hrows|done|by apply Hrows|].
  rewrite <- (Hagree b l s) by (done || lia). done.
Qed.

(** X10.  The character encoder of the instance that [SharedRNN.__init__]
    returns, built with an LSTM, turns a batch of [B] padded words into a
    tensor of sizes [(B, 2 * char_dim)] that holds [B * 2 * char_dim]
    entries; [2 * char_dim] is what the constructor adds to [word_dim] for
    the input size of [wordRNN]. *)
Theorem charRNN_output_feeds_wordRNN
    (num_word_types shared_layer_size num_char_types word_dim char_dim
     hidden_dim : Z) (dropout : value elem) (num_layers : Z)
    (recurrent_unit : string) (shared : value elem)
    (B T : nat) (chars lens : list Z) :
  recurrent_unit ≠ "gru" →
  outcome (SharedRNN num_word_types shared_layer_size num_char_types
             word_dim char_dim hidden_dim dropout num_layers recurrent_unit)
  = Ok shared →
  (0 < B)%nat → (0 < T)%nat →
  Forall (λ i, 0 ≤ i < num_char_types) chars →
  length lens = B → Forall (λ l, 0 < l ≤ Z.of_nat T) lens →
  ∃ charRNN wordRNN cembs,
    getattr shared "charRNN" = mret charRNN
    ∧ getattr shared "wordRNN" = mret wordRNN
    ∧ outcome (CharRNN_forward charRNN (VLong (Tensor [B; T] chars))
                 (VList (VInt <$> lens))) = Ok (VTensor cembs)
    ∧ shape cembs = [B; Z.to_nat (2 * char_dim)]
    ∧ length (data cembs) = numel (shape cembs)
    ∧ getattr wordRNN "input_size" = mret (VInt (word_dim + 2 * char_dim)).
Proof.
  intros Hu Hshared HB HT Hchars HlB Hlens.
  apply SharedRNN_inv in Hshared as Hsizes.
  destruct Hsizes as (? & ? & ? & ? & ? & ?).
  rewrite SharedRNN_ok in Hshared by done. injection Hshared as <-.
  set (cemb := VEmbedding num_char_types char_dim (Some 0)
                 (padded_weight num_char_types char_dim)).
  destruct (CharRNN_forward_lstm num_char_types char_dim 1 (Some 0)
              (padded_weight num_char_types char_dim) recurrent_unit
              (VObj "CharRNN"
                 (<["birnn" := VRNN (selected_unit recurrent_unit) char_dim
                                 char_dim 1 true]> (<["cemb" := cemb]> ∅)))
              B T chars lens)
    as (embedded & packed & _ & _ & Hf);
    [done|by rewrite CharRNN_ok by lia|done|done|by apply in_range_Forall
    |done|by apply lengths_in_range|].
  do 3 eexists. split; [|split; [|split; [|split; [|split]]]].
  - rewrite getattr_obj, (attr_insert_ne _ "wordRNN" "charRNN") by done.
    by rewrite attr_insert_eq.
  - by rewrite getattr_obj, attr_insert_eq.
  - fold cemb. by rewrite Hf.
  - cbn [shape]. do 2 f_equal. lia.
  - cbn [shape data numel foldr].
    rewrite (length_flat_map_seq _ (2 * Z.to_nat char_dim));
      [lia|]. intros b. rewrite length_app, !length_tab. lia.
  - done.
Qed.

(** * Further properties of [SharedBiRNN.forward] and of the whole network *)

(** X11.  When the two loaders give tensors of three dimensions,
    [SharedBiRNN.forward] returns [None] if their first two sizes (batch
    and sentence length) agree, and raises RuntimeError in [torch.cat]
    otherwise; the sizes of the vectors play no part. *)
Theorem SharedBiRNN_forward_sizes (self X : value elem)
    (B T E B' T' G : nat) (elmo glove : list elem) :
  load_elmo_weights X = Ok (Tensor [B; T; E] elmo) →
  load_glove_embeddings X = Ok (Tensor [B'; T'; G] glove) →
  outcome (SharedBiRNN_forward self X) =
  if decide (B = B' ∧ T = T') then Ok VNone else Raise RuntimeError.
Proof.
  intros He Hg.
  unfold SharedBiRNN_forward, utils_load_elmo_weights,
    utils_load_glove_embeddings, torch_cat.
  rewrite He, Hg. cbn -[t_cat].
  destruct (decide (B = B' ∧ T = T')) as [[<- <-]|Hne].
  - by rewrite t_cat_last_dim.
  - unfold t_cat. rewrite !filter_cons_True by done. rewrite filter_nil.
    cbn [shape data length]. change (index_pos 3 2) with (Some 2%nat).
    cbv beta iota. unfold cat_compatible. cbn [forallb take drop length shape].
    rewrite Nat.eqb_refl, (bool_decide_eq_false_2 ([B'; T'] = [B; T]));
      [done|]. intros [= -> ->]. by apply Hne.
Qed.

(** X12.  An exception of a loader ends [SharedBiRNN.forward] with that
    exception: when [load_elmo_weights] raises, [load_glove_embeddings] is
    not called, and when [load_glove_embeddings] raises, [torch.cat] is
    not. *)
Theorem SharedBiRNN_forward_loader_raises (self X : value elem) (e : exn) :
  (load_elmo_weights X = Raise e →
   SharedBiRNN_forward self X = ([Load_elmo_weights X], Raise e))
  ∧ (∀ elmo, load_elmo_weights X = Ok elmo →
             load_glove_embeddings X = Raise e →
             SharedBiRNN_forward self X =
             ([Load_elmo_weights X; Load_glove_embeddings X], Raise e)).
Proof.
  unfold SharedBiRNN_forward, utils_load_elmo_weights,
    utils_load_glove_embeddings.
  split.
  - by intros ->.
  - by intros elmo -> ->.
Qed.

(** X13.  [MTLArchitecture.__init__] never reaches [nn.CrossEntropyLoss()],
    whatever its arguments are. *)
Theorem MTLArchitecture_never_builds_loss
    (num_word_types shared_layer_size num_char_types word_dim char_dim
     hidden_dim : Z) (dropout : value elem)
    (num_layers num_tag_types num_rel_types : Z)
    (activation_type recurrent_unit : string) :
  Forall (λ ev, ev ≠ New_CrossEntropyLoss)
    (trace (MTLArchitecture num_word_types shared_layer_size num_char_types
              word_dim char_dim hidden_dim dropout num_layers num_tag_types
              num_rel_types activation_type recurrent_unit)).
Proof.
  unfold MTLArchitecture.
  apply Forall_trace_bind; [|intros shared _].
  { unfold SharedRNN. no_call. }
  apply Forall_trace_bind; [|intros ner _].
  { unfold NERSpecificRNN. no_call. }
  destruct (RESpecificRNN_raises shared_layer_size num_rel_types hidden_dim
              dropout num_layers activation_type recurrent_unit) as [e He].
  rewrite trace_bind, He, app_nil_r.
  destruct (activation_name_cases activation_type) as [[a ->]|Hn].
  - rewrite RESpecificRNN_supported. by repeat constructor.
  - rewrite RESpecificRNN_unsupported; [constructor|].
    intros [a ->]. destruct Hn as (H1 & H2 & H3). by destruct a.
Qed.

(** X14.  With sizes that the layers accept and an [activation_type] other
    than "relu", "tanh" and "gelu", [MTLArchitecture.__init__] builds the
    two tables and the two recurrent layers of SharedRNN, then the
    recurrent and the linear layer of NERSpecificRNN, and raises
    AttributeError in RESpecificRNN: no activation layer is built or
    applied. *)
Theorem MTLArchitecture_unsupported_activation
    (num_word_types shared_layer_size num_char_types word_dim char_dim
     hidden_dim : Z) (dropout : value elem)
    (num_layers num_tag_types num_rel_types : Z)
    (activation_type recurrent_unit : string) :
  0 < num_word_types → 0 < num_char_types → 0 ≤ word_dim → 0 < char_dim →
  0 < hidden_dim → 0 < num_layers → 0 < shared_layer_size →
  0 ≤ num_tag_types →
  activation_type ≠ "relu" → activation_type ≠ "tanh" →
  activation_type ≠ "gelu" →
  let u := selected_unit recurrent_unit in
  MTLArchitecture num_word_types shared_layer_size num_char_types word_dim
    char_dim hidden_dim dropout num_layers num_tag_types num_rel_types
    activation_type recurrent_unit =
  ([New_Embedding (VInt num_word_types) (VInt word_dim) (VInt 0);
    New_Embedding (VInt num_char_types) (VInt char_dim) (VInt 0);
    New_RNN u (VInt char_dim) (VInt char_dim) (VInt 1) true;
    New_RNN u (VInt (word_dim + 2 * char_dim)) (VInt hidden_dim)
      (VInt num_layers) true;
    New_RNN u (VInt shared_layer_size) (VInt hidden_dim) (VInt num_layers)
      true;
    New_Linear (VInt hidden_dim) (VInt num_tag_types)],
   Raise AttributeError).
Proof.
  intros ? ? ? ? ? ? ? ? H1 H2 H3 u. unfold MTLArchitecture.
  rewrite SharedRNN_ok by lia. msimpl.
  assert (String.eqb activation_type "relu" = false) as E1
    by by apply String.eqb_neq.
  assert (String.eqb activation_type "tanh" = false) as E2
    by by apply String.eqb_neq.
  assert (String.eqb activation_type "gelu" = false) as E3
    by by apply String.eqb_neq.
  unfold NERSpecificRNN.
  rewrite selected_rnn, nn_RNN_ok by lia. msimpl.
  rewrite E1, E2, E3. msimpl. rewrite nn_Linear_ok by lia. msimpl.
  rewrite RESpecificRNN_unsupported; [done|].
  intros [a ->]. by destruct a.
Qed.

(** X16.  The recurrent layer of the NER head accepts what the layer
    [wordRNN] of SharedRNN gives for a padded batch, of at least one time
    step and one sentence, exactly when [shared_layer_size] is
    [2 * hidden_dim]: the two are independent arguments of
    [MTLArchitecture.__init__], which passes [hidden_dim], [num_layers]
    and [recurrent_unit] to both constructors. *)
Theorem NER_head_accepts_shared_output
    (num_word_types shared_layer_size num_char_types word_dim char_dim
     hidden_dim : Z) (dropout : value elem) (num_layers num_tag_types : Z)
    (activation_type recurrent_unit : string) (shared ner : value elem)
    (T B : nat) (entries : list elem) :
  outcome (SharedRNN num_word_types shared_layer_size num_char_types
             word_dim char_dim hidden_dim dropout num_layers recurrent_unit)
  = Ok shared →
  outcome (NERSpecificRNN shared_layer_size num_tag_types hidden_dim
             dropout num_layers activation_type recurrent_unit) = Ok ner →
  (0 < T)%nat → (0 < B)%nat →
  let x := VTensor (Tensor [T; B; Z.to_nat (word_dim + 2 * char_dim)]
                      entries) in
  ∃ wordRNN birnn out state,
    getattr shared "wordRNN" = mret wordRNN
    ∧ getattr ner "birnn" = mret birnn
    ∧ outcome (call wordRNN x) = Ok (VTuple [VTensor out; state])
    ∧ shape out = [T; B; Z.to_nat (2 * hidden_dim)]
    ∧ ((∃ r, outcome (call birnn (VTensor out)) = Ok r) ↔
       shared_layer_size = 2 * hidden_dim).
Proof.
  intros Hshared Hner HT HB x.
  apply SharedRNN_inv in Hshared as Hsizes.
  apply NERSpecificRNN_inv in Hner as Hsizes'.
  assert ((T =? 0)%nat = false) as HT0 by (apply Nat.eqb_neq; lia).
  rewrite SharedRNN_ok in Hshared by lia. injection Hshared as <-.
  destruct (NERSpecificRNN_returns shared_layer_size num_tag_types
              hidden_dim dropout num_layers activation_type recurrent_unit)
    as (attrs & Hrun & Hbirnn & _); [lia..|].
  rewrite Hrun in Hner. injection Hner as <-.
  do 4 eexists. split; [|split; [|split; [|split]]].
  - by rewrite getattr_obj, attr_insert_eq.
  - rewrite getattr_obj. unfold attr. by rewrite Hbirnn.
  - unfold call, x. rewrite outcome_bind. cbn [outcome emit snd lift nn_forward].
    unfold RNN_forward. by rewrite Nat.eqb_refl, HT0.
  - cbn [shape tensor3]. do 3 f_equal. lia.
  - unfold call. rewrite outcome_bind. cbn [outcome emit snd lift nn_forward].
    unfold RNN_forward. cbn [tensor3]. rewrite HT0.
    destruct (Nat.eqb_spec (2 * Z.to_nat hidden_dim)
                (Z.to_nat shared_layer_size)) as [Heq|Hne].
    + split; [lia|]. intros _. by eexists.
    + split; [by intros [r ?]|lia].
Qed.

(** X17.  The rest of [SharedBiRNN.__init__], for any binding of the name
    [CharBiRNN]: with vocabularies that are not empty, when the call
    [CharBiRNN(self.cemb, 1, recurrent_unit)] returns and [num_layers] is
    positive, the constructor returns an instance that holds the result of
    the call as [charRNN] and a bidirectional [word_birnn] of [num_layers]
    layers whose input and hidden size are both 1388. *)
Theorem SharedBiRNN_with_returns
    (CharBiRNN : value elem → Z → string → M elem (value elem))
    (num_word_types num_char_types num_layers : Z) (recurrent_unit : string)
    (charRNN : value elem) :
  0 < num_word_types → 0 < num_char_types → 0 < num_layers →
  outcome (CharBiRNN (VEmbedding num_char_types 32 (Some 0)
                        (padded_weight num_char_types 32))
             1 recurrent_unit) = Ok charRNN →
  ∃ attrs,
    outcome (SharedBiRNN_with CharBiRNN num_word_types num_char_types
               num_layers recurrent_unit) = Ok (VObj "SharedBiRNN" attrs)
    ∧ attrs !! "Pad_ind" = Some (VInt 0)
    ∧ attrs !! "wemb" = Some (VEmbedding num_word_types 1388 (Some 0)
                                (padded_weight num_word_types 1388))
    ∧ attrs !! "charRNN" = Some charRNN
    ∧ attrs !! "word_birnn" =
        Some (VRNN (selected_unit recurrent_unit) 1388 1388 num_layers true).
Proof.
  intros Hw Hc Hl Hchar. eexists. unfold SharedBiRNN_with.
  rewrite attr_insert_eq, ret_bind.
  change (ELMODim + GloveDim + 2 * CharDim) with 1388.
  change CharDim with 32.
  rewrite nn_Embedding_ok by lia. msimpl.
  rewrite attr_insert_ne, attr_insert_eq by done. msimpl.
  rewrite nn_Embedding_ok by lia. msimpl.
  rewrite attr_insert_eq. msimpl.
  rewrite outcome_bind, Hchar.
  rewrite selected_rnn, nn_RNN_ok by lia. msimpl.
  by repeat split.
Qed.

(** X18.  Which exception [CharRNN.forward] raises with a GRU, on a batch
    that the lookup and the packing accept: the characters are looked up
    and packed and the GRU is applied; then with [num_layers = 1] the
    assignment [_, (final_h, _) = ...] succeeds and [final_h.view(...)]
    raises RuntimeError, and with more layers the assignment raises
    ValueError. *)
Theorem CharRNN_forward_gru_exception
    (n d num_layers : Z) (pad : option Z) (w : list (list elem))
    (self : value elem) (B T : nat) (chars lens : list Z) :
  let cemb := VEmbedding n d pad w in
  let birnn := VRNN GRU d d num_layers true in
  let padded_chars := VLong (Tensor [B; T] chars) in
  let char_lengths := VList (VInt <$> lens) in
  outcome (CharRNN cemb num_layers "gru") = Ok self →
  (0 < B)%nat → (0 < T)%nat →
  Forall (λ i, 0 ≤ i < n) chars →
  length lens = B → Forall (λ l, 0 < l ≤ Z.of_nat T) lens →
  ∃ embedded packed,
    nn_forward cemb padded_chars = Ok embedded
    ∧ outcome (pack_padded_sequence embedded char_lengths true false)
      = Ok packed
    ∧ CharRNN_forward self padded_chars char_lengths =
      ([Call cemb padded_chars;
        Pack_padded_sequence embedded char_lengths true false;
        Call birnn packed],
       Raise (if num_layers =? 1 then RuntimeError else ValueError)).
Proof.
  intros cemb birnn padded_chars char_lengths Hself HB HT Hchars%in_range_Forall
    Hlen Hlens%lengths_in_range.
  apply CharRNN_inv in Hself as (d' & Hd & Hl & Hdim & ->).
  simpl in Hdim. injection Hdim as <-.
  change (selected_unit "gru") with GRU. fold cemb birnn.
  assert (lengths_of char_lengths = Some lens) as Hls by apply ints_VInt.
  set (H := Z.to_nat d). set (L := Z.to_nat num_layers).
  assert (0 < H)%nat as HH by lia. assert (0 < L)%nat as HL by lia.
  set (embedded := VTensor (Tensor [B; T; H]
         (flat_map (λ i, default [] (w !! Z.to_nat i)) chars))).
  assert (call cemb padded_chars = ([Call cemb padded_chars], Ok embedded))
    as Hcall.
  { unfold call. simpl. unfold Embedding_forward. simpl. by rewrite Hchars. }
  destruct (pack_padded_batch B T H
              (flat_map (λ i, default [] (w !! Z.to_nat i)) chars)
              char_lengths lens Hls HB HT HH Hlen Hlens)
    as (pk & Hpack & Hfeat & Hpk & Hsteps & _).
  fold embedded in Hpack.
  destruct (call_RNN_packed GRU d d num_layers pk Hfeat Hsteps) as [out Hrnn].
  fold birnn H L in Hrnn. rewrite Hpk in Hrnn.
  exists embedded, (VPacked pk). split; [|split].
  - simpl. unfold Embedding_forward. simpl. by rewrite Hchars.
  - by rewrite Hpack.
  - forward_lookup Hls. rewrite Hlen.
    rewrite Hcall. msimpl. rewrite Hpack. msimpl. rewrite Hrnn. msimpl.
    cbn [unpack2]. msimpl. cbn [unpack2].
    unfold t_unpack2, tensor3. cbn [shape data].
    destruct (Z.eqb_spec num_layers 1) as [->|Hne].
    + change (2 * L =? 2)%nat with true. cbv iota.
      unfold lift. msimpl.
      change (getattr birnn "num_layers")
        with (mret (M := M elem) (VInt (elem := elem) 1)).
      msimpl.
      change (getattr birnn "hidden_size")
        with (mret (M := M elem) (VInt (elem := elem) d)).
      msimpl.
      unfold Tensor_view, ints, t_view.
      cbn [mapM mbind mret option_bind option_ret shape].
      rewrite view_shape_nonneg by (repeat constructor; lia).
      cbn [fmap list_fmap numel foldr]. rewrite Nat2Z.id. fold H.
      destruct (Nat.eqb_spec (Z.to_nat 1 * (Z.to_nat 2 * (B * (H * 1))))
                  (B * (H * 1))) as [Heq|]; [exfalso; nia|done].
    + destruct (Nat.eqb_spec (2 * L) 2) as [HL2|]; [unfold L in HL2; lia|].
      done.
Qed.

End Proofs.

(** * The properties on concrete configurations *)

Example sample_cemb_built :
  outcome (nn_Embedding (VInt 4) (VInt 3) (VInt 0)) = Ok sample_cemb.
Proof. reflexivity. Qed.

(** The default configuration of MTLArchitecture, on small sizes: every
    layer up to the activation of the RE head is built, then the call of
    that activation on [None] raises. *)
Example MTLArchitecture_default_example :
  MTLArchitecture (elem := Z) 5 4 3 2 2 3 (VInt 0) 1 4 3 "relu" "gru" =
  ([New_Embedding (VInt 5) (VInt 2) (VInt 0);
    New_Embedding (VInt 3) (VInt 2) (VInt 0);
    New_RNN GRU (VInt 2) (VInt 2) (VInt 1) true;
    New_RNN GRU (VInt 6) (VInt 3) (VInt 1) true;
    New_RNN GRU (VInt 4) (VInt 3) (VInt 1) true;
    New_Activation ReLU;
    New_Linear (VInt 3) (VInt 4);
    New_Activation ReLU;
    Call (VActivation ReLU) VNone],
   Raise TypeError).
Proof. reflexivity. Qed.

(** With "relu", RESpecificRNN raises TypeError at the call of the
    activation, and [nn.Linear] is never constructed. *)
Lemma RESpecificRNN_relu_builds_no_Linear :
  outcome (RESpecificRNN (elem := Z) 4 3 3 (VInt 0) 1 "relu" "gru")
  = Raise TypeError
  ∧ ¬ ∃ v o,
        New_Linear v o
        ∈ trace (RESpecificRNN (elem := Z) 4 3 3 (VInt 0) 1 "relu" "gru").
Proof.
  split; [reflexivity|]. intros (v & o & Hin).
  rewrite (RESpecificRNN_supported ReLU) in Hin. simpl in Hin.
  repeat (apply elem_of_cons in Hin as [Hin|Hin]; [discriminate|]).
  by apply elem_of_nil in Hin.
Qed.

Lemma NERSpecificRNN_unsupported_activation_witness :
  ∃ attrs,
    NERSpecificRNN (elem := Z) 4 5 3 (VInt 0) 1 "sigmoid" "lstm" =
    ([New_RNN LSTM (VInt 4) (VInt 3) (VInt 1) true;
      New_Linear (VInt 3) (VInt 5)],
     Ok (VObj "NERSpecificRNN" attrs))
    ∧ attrs !! "FFNNe1" = None
    ∧ attrs !! "birnn" = Some (VRNN LSTM 4 3 1 true)
    ∧ attrs !! "FFNNe2" = Some (VLinear 3 5).
Proof.
  apply (NERSpecificRNN_unsupported_activation 4 5 3 (VInt 0) 1 "sigmoid" "lstm");
    (done || lia).
Defined.

Lemma MTLArchitecture_stops_at_RE_head_witness :
  ∃ shared ner,
    outcome (SharedRNN (elem := Z) 5 4 3 2 2 3 (VInt 0) 1 "gru")
    = Ok (VObj "SharedRNN" shared)
    ∧ outcome (NERSpecificRNN (elem := Z) 4 4 3 (VInt 0) 1 "relu" "gru")
      = Ok (VObj "NERSpecificRNN" ner)
    ∧ ner !! "FFNNe2" = Some (VLinear 3 4)
    ∧ outcome (RESpecificRNN (elem := Z) 4 3 3 (VInt 0) 1 "relu" "gru")
      = Raise TypeError
    ∧ outcome (MTLArchitecture (elem := Z) 5 4 3 2 2 3 (VInt 0) 1 4 3
                 "relu" "gru") = Raise TypeError.
Proof.
  apply (MTLArchitecture_stops_at_RE_head ReLU 5 4 3 2 2 3 (VInt 0) 1 4 3 "gru");
    lia.
Defined.

(** C5, on the default unit.  [forward] should return one row of
    [2 * embedding_dim] entries per sequence.  The CharRNN built with "gru"
    on the sample table raises RuntimeError on the sample batch, where the
    one built with "lstm" returns the 2 rows of 6 entries. *)
Example CharRNN_forward_gru_example :
  outcome (CharRNN sample_cemb 1 "gru") = Ok (sample_CharRNN GRU)
  ∧ outcome (CharRNN_forward (sample_CharRNN GRU) sample_chars sample_lengths)
    = Raise RuntimeError
  ∧ outcome (CharRNN sample_cemb 1 "lstm") = Ok (sample_CharRNN LSTM)
  ∧ outcome (CharRNN_forward (sample_CharRNN LSTM) sample_chars sample_lengths)
    = Ok (VTensor (Tensor [2%nat; 6%nat]
            [1000; 1001; 1002; 1100; 1101; 1102;
             1010; 1011; 1012; 1110; 1111; 1112])).
Proof. repeat split; reflexivity. Qed.

Lemma embeddings_are_concatenated_witness :
  (∃ attrs,
     outcome (SharedRNN (elem := Z) 5 4 3 2 2 3 (VInt 0) 1 "lstm")
     = Ok (VObj "SharedRNN" attrs)
     ∧ attrs !! "wordRNN" = Some (VRNN LSTM 6 3 1 true))
  ∧ trace (SharedBiRNN_forward (VObj "SharedBiRNN" ∅) sample_sentences) =
    [Load_elmo_weights sample_sentences;
     Load_glove_embeddings sample_sentences;
     Torch_cat [VTensor (Tensor [1; 2; 2]%nat [0; 1; 10; 11]);
                VTensor (Tensor [1; 2; 1]%nat [500; 510])] 2].
Proof.
  destruct (embeddings_are_concatenated 5 4 3 2 2 3 (VInt 0) 1 "lstm"
              (VObj "SharedBiRNN" ∅) sample_sentences
              (Tensor [1; 2; 2]%nat [0; 1; 10; 11])
              (Tensor [1; 2; 1]%nat [500; 510]))
    as (Hword & _ & _ & Hcat).
  split; [apply Hword; lia | apply Hcat; reflexivity].
Defined.

Lemma concatenation_is_discarded_witness :
  t_cat [Tensor [1; 2; 2]%nat [0; 1; 10; 11];
         Tensor [1; 2; 1]%nat [500; 510]] 2
  = Ok (Tensor [1; 2; 3]%nat [0; 1; 500; 10; 11; 510])
  ∧ SharedBiRNN_forward (VObj "SharedBiRNN" ∅) sample_sentences =
    ([Load_elmo_weights sample_sentences;
      Load_glove_embeddings sample_sentences;
      Torch_cat [VTensor (Tensor [1; 2; 2]%nat [0; 1; 10; 11]);
                 VTensor (Tensor [1; 2; 1]%nat [500; 510])] 2],
     Ok VNone)
  ∧ outcome (SharedBiRNN_forward (VObj "SharedBiRNN" ∅) sample_sentences)
    ≠ Ok (VTensor (Tensor [1; 2; 3]%nat [0; 1; 500; 10; 11; 510])).
Proof.
  apply (concatenation_is_discarded (VObj "SharedBiRNN" ∅) sample_sentences
           1 2 2 1 [0; 1; 10; 11] [500; 510]); reflexivity.
Defined.

Lemma recurrent_layers_bidirectional_witness :
  let both (ev : event Z) :=
    match ev with
    | New_RNN u _ _ _ b => b = true ∧ u = LSTM
    | _ => True
    end in
  Forall both (trace (SharedRNN 5 4 3 2 2 3 (VInt 0) 1 "lstm"))
  ∧ Forall both (trace (SharedBiRNN_with CharRNN 5 3 1 "lstm")).
Proof.
  intros both.
  destruct (recurrent_layers_bidirectional 5 4 3 2 2 3 (VInt 0) sample_cemb
              1 4 "relu" "lstm" CharRNN) as (Hshared & _ & _ & _ & Hwith).
  assert (∀ ev : event Z,
            match ev with
            | New_RNN u _ _ _ b =>
                b = true ∧ ("lstm" = "gru" → u = GRU)
                ∧ ("lstm" ≠ "gru" → u = LSTM)
            | _ => True
            end → both ev) as Hboth.
  { intros []; simpl; try done.
    intros (-> & _ & Hlstm). split; [done|]. by apply Hlstm. }
  split; (eapply Forall_impl; [|apply Hboth]); [apply Hshared|].
  apply Hwith. intros c.
  destruct (recurrent_layers_bidirectional 5 4 3 2 2 3 (VInt 0) c
              1 4 "relu" "lstm" CharRNN) as (_ & _ & Hchar & _).
  apply Hchar.
Defined.

(** Were [CharBiRNN] bound to CharRNN, SharedBiRNN would build its word
    table, its character table, the character layer and the word layer. *)
Example SharedBiRNN_with_CharRNN_example :
  trace (SharedBiRNN_with (elem := Z) CharRNN 5 3 1 "lstm") =
  [New_Embedding (VInt 5) (VInt 1388) (VInt 0);
   New_Embedding (VInt 3) (VInt 32) (VInt 0);
   New_RNN LSTM (VInt 32) (VInt 32) (VInt 1) true;
   New_RNN LSTM (VInt 1388) (VInt 1388) (VInt 1) true]
  ∧ SharedBiRNN (elem := Z) 5 3 1 "lstm" =
    ([New_Embedding (VInt 5) (VInt 1388) (VInt 0);
      New_Embedding (VInt 3) (VInt 32) (VInt 0)],
     Raise NameError).
Proof. split; vm_compute; reflexivity. Qed.

Lemma CharRNN_forward_gru_raises_witness :
  outcome (CharRNN sample_cemb 1 "gru") = Ok (sample_CharRNN GRU)
  ∧ raises (CharRNN_forward (sample_CharRNN GRU) sample_chars sample_lengths).
Proof.
  split; [reflexivity|].
  apply (CharRNN_forward_gru_raises sample_cemb (sample_CharRNN GRU)
           sample_chars sample_lengths 1).
  reflexivity.
Defined.

Lemma SharedBiRNN_forward_returns_None_witness :
  SharedBiRNN_forward (VObj "SharedBiRNN" ∅) sample_sentences =
  ([Load_elmo_weights sample_sentences;
    Load_glove_embeddings sample_sentences;
    Torch_cat [VTensor (Tensor [1; 2; 2]%nat [0; 1; 10; 11]);
               VTensor (Tensor [1; 2; 1]%nat [500; 510])] 2],
   Ok VNone).
Proof.
  destruct (SharedBiRNN_forward_returns_None
              (VObj "SharedBiRNN" ∅) sample_sentences)
    as (_ & _ & Hret).
  apply (Hret _ _ (Tensor [1; 2; 3]%nat [0; 1; 500; 10; 11; 510]));
    reflexivity.
Defined.

Lemma embedding_tables_pad_index_0_witness :
  (∃ attrs wemb cemb,
     outcome (SharedRNN (elem := Z) 5 4 3 2 2 3 (VInt 0) 1 "gru")
     = Ok (VObj "SharedRNN" attrs)
     ∧ attrs !! "PAD_ind" = Some (VInt 0)
     ∧ attrs !! "wemb" = Some wemb
     ∧ attrs !! "cemb" = Some cemb
     ∧ outcome (nn_Embedding (VInt 5) (VInt 2) (VInt 0)) = Ok wemb
     ∧ outcome (nn_Embedding (VInt 3) (VInt 2) (VInt 0)) = Ok cemb)
  ∧ nn_forward sample_cemb sample_chars =
    Ok (VTensor (Tensor [2; 3; 3]%nat
          [11; 12; 13; 21; 22; 23; 0; 0; 0;
           31; 32; 33; 11; 12; 13; 21; 22; 23])).
Proof.
  destruct (embedding_tables_pad_index_0 5 4 3 2 2 3 (VInt 0) 1 "gru" 4 3
              sample_cemb (Tensor [2; 3]%nat [1; 2; 0; 3; 1; 2]))
    as (_ & _ & Hshared & Hlookup).
  split; [apply Hshared; lia | apply Hlookup; reflexivity].
Defined.

(** ** Instances of the further properties *)

Lemma SharedRNN_character_encoder_witness :
  ∃ attrs cemb char_attrs,
    outcome (SharedRNN (elem := Z) 5 4 3 2 2 3 (VInt 0) 4 "gru")
    = Ok (VObj "SharedRNN" attrs)
    ∧ attrs !! "cemb" = Some cemb
    ∧ attrs !! "charRNN" = Some (VObj "CharRNN" char_attrs)
    ∧ char_attrs !! "cemb" = Some cemb
    ∧ char_attrs !! "birnn" = Some (VRNN GRU 2 2 1 true)
    ∧ trace (SharedRNN (elem := Z) 5 4 3 2 2 3 (VInt 0) 4 "gru")
      = [New_Embedding (VInt 5) (VInt 2) (VInt 0);
         New_Embedding (VInt 3) (VInt 2) (VInt 0);
         New_RNN GRU (VInt 2) (VInt 2) (VInt 1) true;
         New_RNN GRU (VInt 6) (VInt 3) (VInt 4) true].
Proof.
  destruct (SharedRNN_character_encoder (elem := Z) 5 4 3 2 2 3 (VInt 0) 4
              "gru") as (Hbuilt & Hlog & _); [lia..|].
  destruct Hbuilt as (attrs & cemb & char_attrs & ? & ? & ? & ? & ?).
  by exists attrs, cemb, char_attrs.
Defined.

Lemma CharRNN_returns_iff_witness :
  CharRNN (elem := Z) VNone 1 "gru" = ([], Raise AttributeError).
Proof.
  destruct (CharRNN_returns_iff (elem := Z) VNone 1 "gru") as [_ Hraise].
  apply Hraise. reflexivity.
Defined.

Lemma unsupported_activation_is_AttributeError_witness :
  RESpecificRNN (elem := Z) 4 3 3 (VInt 0) 1 "sigmoid" "gru"
  = ([], Raise AttributeError)
  ∧ NERSpecificBiRNN (elem := Z) 3 5 3 (VInt 0) 1 "sigmoid" "gru"
    = ([], Raise AttributeError)
  ∧ RESpecificBiRNN (elem := Z) 3 3 (VInt 0) 1 "sigmoid" "gru"
    = ([], Raise AttributeError).
Proof.
  apply (unsupported_activation_is_AttributeError (elem := Z) 4 3 5 3 (VInt 0)
           1 "sigmoid" "gru"); done.
Defined.

Lemma SharedBiRNN_raises_witness :
  SharedBiRNN (elem := Z) 5 3 2 "lstm" =
  ([New_Embedding (VInt 5) (VInt 1388) (VInt 0);
    New_Embedding (VInt 3) (VInt 32) (VInt 0)],
   Raise NameError).
Proof.
  destruct (SharedBiRNN_raises (elem := Z) 5 3 2 "lstm") as [_ Hstops].
  apply Hstops; lia.
Defined.



Lemma CharRNN_forward_lstm_ignores_padding_witness :
  let self := VObj "CharRNN"
                (<["birnn" := VRNN LSTM 3 3 1 true]>
                   (<["cemb" := VEmbedding 4 3 (Some 0) (padded_weight 4 3)]>
                      ∅)) in
  ∃ cembs : value Z,
    outcome (CharRNN_forward self
               (VLong (Tensor [2; 3]%nat [1; 2; 0; 3; 1; 2])) sample_lengths)
    = Ok cembs
    ∧ outcome (CharRNN_forward self
                 (VLong (Tensor [2; 3]%nat [1; 2; 3; 3; 1; 2]))
                 sample_lengths) = Ok cembs.
Proof.
  apply (CharRNN_forward_lstm_ignores_padding (elem := Z) 4 3 1 "lstm"
           (VEmbedding 4 3 (Some 0) (padded_weight 4 3)) _ 2 3
           [1; 2; 0; 3; 1; 2] [1; 2; 3; 3; 1; 2] [2; 3]);
    try reflexivity; try lia; try done.
  - apply in_range_Forall. reflexivity.
  - apply in_range_Forall. reflexivity.
  - apply lengths_in_range. reflexivity.
  - intros [|[|b]] l s Hl Hs; simpl in Hl; [| |done]; injection Hl as <-.
    + destruct s as [|[|s]]; [reflexivity|reflexivity|lia].
    + destruct s as [|[|[|s]]]; [reflexivity|reflexivity|reflexivity|lia].
Defined.

Lemma charRNN_output_feeds_wordRNN_witness :
  ∃ shared charRNN cembs,
    outcome (SharedRNN (elem := Z) 5 4 4 2 3 3 (VInt 0) 2 "lstm") = Ok shared
    ∧ getattr shared "charRNN" = mret charRNN
    ∧ outcome (CharRNN_forward charRNN sample_chars sample_lengths)
      = Ok (VTensor cembs)
    ∧ shape cembs = [2; 6]%nat.
Proof.
  pose proof (SharedRNN_ok (elem := Z) 5 4 4 2 3 3 (VInt 0) 2 "lstm"
                ltac:(lia) ltac:(lia) ltac:(lia) ltac:(lia) ltac:(lia)
                ltac:(lia)) as Hbuilt.
  apply (f_equal outcome) in Hbuilt. cbn [outcome snd] in Hbuilt.
  destruct (charRNN_output_feeds_wordRNN (elem := Z) 5 4 4 2 3 3
              (VInt 0) 2 "lstm" _ 2 3 [1; 2; 0; 3; 1; 2] [2; 3]
              ltac:(done) Hbuilt)
    as (charRNN & wordRNN & cembs & Hchar & _ & Hforward & Hshape & _).
  - lia.
  - lia.
  - apply in_range_Forall. reflexivity.
  - reflexivity.
  - apply lengths_in_range. reflexivity.
  - eexists _, charRNN, cembs. split; [exact Hbuilt|]. by repeat split.
Defined.

Lemma SharedBiRNN_forward_sizes_witness :
  outcome (SharedBiRNN_forward (VObj "SharedBiRNN" ∅) sample_sentences)
  = Ok VNone.
Proof.
  apply (SharedBiRNN_forward_sizes (VObj "SharedBiRNN" ∅) sample_sentences
           1 2 2 1 2 1 [0; 1; 10; 11] [500; 510]); reflexivity.
Defined.

Lemma SharedBiRNN_forward_loader_raises_witness :
  @SharedBiRNN_forward Z sample_utils_checking (VObj "SharedBiRNN" ∅) VNone
  = ([Load_elmo_weights VNone], Raise TypeError)
  ∧ @SharedBiRNN_forward Z sample_utils_checking (VObj "SharedBiRNN" ∅)
      (VList [])
    = ([Load_elmo_weights (VList []); Load_glove_embeddings (VList [])],
       Raise IndexError).
Proof.
  split.
  - apply (@SharedBiRNN_forward_loader_raises Z sample_utils_checking
             (VObj "SharedBiRNN" ∅) VNone TypeError).
    reflexivity.
  - eapply (@SharedBiRNN_forward_loader_raises Z sample_utils_checking
              (VObj "SharedBiRNN" ∅) (VList []) IndexError); reflexivity.
Defined.

Lemma MTLArchitecture_unsupported_activation_witness :
  MTLArchitecture (elem := Z) 5 4 3 2 2 3 (VInt 0) 1 4 3 "sigmoid" "gru" =
  ([New_Embedding (VInt 5) (VInt 2) (VInt 0);
    New_Embedding (VInt 3) (VInt 2) (VInt 0);
    New_RNN GRU (VInt 2) (VInt 2) (VInt 1) true;
    New_RNN GRU (VInt 6) (VInt 3) (VInt 1) true;
    New_RNN GRU (VInt 4) (VInt 3) (VInt 1) true;
    New_Linear (VInt 3) (VInt 4)],
   Raise AttributeError).
Proof.
  apply (MTLArchitecture_unsupported_activation (elem := Z) 5 4 3 2 2 3
           (VInt 0) 1 4 3 "sigmoid" "gru"); (lia || done).
Defined.

Lemma NER_head_accepts_shared_output_witness :
  ∃ shared ner wordRNN birnn out state,
    outcome (SharedRNN (elem := Z) 5 6 3 2 2 3 (VInt 0) 1 "gru") = Ok shared
    ∧ outcome (NERSpecificRNN (elem := Z) 6 4 3 (VInt 0) 1 "relu" "gru")
      = Ok ner
    ∧ getattr shared "wordRNN" = mret wordRNN
    ∧ getattr ner "birnn" = mret birnn
    ∧ outcome (call wordRNN
                 (VTensor (Tensor [2; 1; 6]%nat (replicate 12 0))))
      = Ok (VTuple [VTensor out; state])
    ∧ shape out = [2; 1; 6]%nat
    ∧ ∃ r, outcome (call birnn (VTensor out)) = Ok r.
Proof.
  pose proof (SharedRNN_ok (elem := Z) 5 6 3 2 2 3 (VInt 0) 1 "gru"
                ltac:(lia) ltac:(lia) ltac:(lia) ltac:(lia) ltac:(lia)
                ltac:(lia)) as Hshared.
  apply (f_equal outcome) in Hshared. cbn [outcome snd] in Hshared.
  pose proof (NERSpecificRNN_supported_ok (elem := Z) ReLU 6 4 3 (VInt 0) 1
                "gru" ltac:(lia) ltac:(lia) ltac:(lia) ltac:(lia)) as Hner.
  apply (f_equal outcome) in Hner. cbn [outcome snd] in Hner.
  destruct (NER_head_accepts_shared_output (elem := Z) 5 6 3 2 2 3 (VInt 0)
              1 4 "relu" "gru" _ _ 2 1 (replicate 12 0) Hshared Hner
              ltac:(lia) ltac:(lia))
    as (wordRNN & birnn & out & state & Hw & Hb & Hcall & Hshape & Hiff).
  eexists _, _, wordRNN, birnn, out, state.
  split; [exact Hshared|]. split; [exact Hner|].
  repeat (split; [assumption|]). by apply Hiff.
Defined.

Lemma SharedBiRNN_with_returns_witness :
  ∃ attrs,
    outcome (SharedBiRNN_with (elem := Z) CharRNN 5 3 2 "gru")
    = Ok (VObj "SharedBiRNN" attrs)
    ∧ attrs !! "Pad_ind" = Some (VInt 0)
    ∧ attrs !! "wemb" = Some (VEmbedding 5 1388 (Some 0)
                                (padded_weight 5 1388))
    ∧ attrs !! "charRNN" =
        Some (VObj "CharRNN"
                (<["birnn" := VRNN GRU 32 32 1 true]>
                   (<["cemb" := VEmbedding 3 32 (Some 0)
                                  (padded_weight 3 32)]> ∅)))
    ∧ attrs !! "word_birnn" = Some (VRNN GRU 1388 1388 2 true).
Proof.
  apply (SharedBiRNN_with_returns (elem := Z) CharRNN 5 3 2 "gru");
    [lia|lia|lia|].
  rewrite CharRNN_ok by lia. reflexivity.
Defined.

Lemma CharRNN_forward_gru_exception_witness :
  ∃ embedded packed,
    nn_forward sample_cemb sample_chars = Ok embedded
    ∧ outcome (pack_padded_sequence embedded sample_lengths true false)
      = Ok packed
    ∧ CharRNN_forward (sample_CharRNN GRU) sample_chars sample_lengths =
      ([Call sample_cemb sample_chars;
        Pack_padded_sequence embedded sample_lengths true false;
        Call (VRNN GRU 3 3 1 true) packed],
       Raise RuntimeError).
Proof.
  apply (CharRNN_forward_gru_exception 4 3 1 (Some 0)
           [[0; 0; 0]; [11; 12; 13]; [21; 22; 23]; [31; 32; 33]]
           (sample_CharRNN GRU) 2 3 [1; 2; 0; 3; 1; 2] [2; 3]).
  - reflexivity.
  - lia.
  - lia.
  - apply in_range_Forall. reflexivity.
  - reflexivity.
  - apply lengths_in_range. reflexivity.
Defined.
